(** * predictMemeDex: fetch, evaluate, select, monitor

    A shallow embedding of [predictMemeDex.py].  Python floats are the
    kernel's binary64 numbers, the values decoded from a response body are a
    small inductive type, and the effects of the script (HTTP requests, random
    draws, printed lines, sleeping, exceptions) are threaded through one
    state-and-exception monad.

    Outside the model: a request that gets no response at all, a body that
    is not JSON, and a call of the library's [random.sample] that does not
    return.  Every request is answered with a status and a decoded body. *)

From Stdlib Require Import ZArith List String Ascii Bool Arith Lia Floats.
From Stdlib Require Import Permutation.
Import ListNotations.

Open Scope string_scope.
Open Scope list_scope.
Set Warnings "-register-all".

(** ** Values and exceptions *)

(** What [response.json()] yields: the Python image of a JSON document.  A
    [dict] is kept as its list of items; [assoc] reads it. *)
Inductive json : Type :=
| JNull
| JBool (b : bool)
| JInt (z : Z)
| JFloat (f : float)
| JStr (s : string)
| JList (l : list json)
| JDict (items : list (string * json)).

(** The exceptions the script can meet.  [PlainException status] is the
    [Exception("Failed to fetch data: ...")] of [fetch_data]; [FormatException]
    is the [Exception("Unexpected response format ...")] of
    [get_random_tokens].  Both are instances of the class [Exception] itself. *)
Inductive exn : Type :=
| KeyError
| ZeroDivisionError
| TypeError
| ValueError
| AttributeError
| IndexError
| OverflowError
| PlainException (status : Z)
| FormatException.

Inductive result (A : Type) : Type :=
| Ok (a : A)
| Raise (e : exn).
Arguments Ok {A} a.
Arguments Raise {A} e.

Definition rbind {A B} (r : result A) (k : A -> result B) : result B :=
  match r with
  | Ok a => k a
  | Raise e => Raise e
  end.

Declare Scope result_scope.
Delimit Scope result_scope with result.
Notation "x <-? r ;; k" := (rbind r (fun x => k))
  (at level 61, r at next level, right associativity) : result_scope.

(** ** Python floats *)

Module PyFloat.

(** [max(a, b)] keeps its first argument unless the second is strictly
    greater.  The script calls it with the [int] 1 as second argument, which
    compares and divides as the float 1. *)
Definition py_max (a b : float) : float :=
  if PrimFloat.ltb a b then b else a.

(** [a / b] on floats raises when the divisor compares equal to zero. *)
Definition truediv (a b : float) : result float :=
  if PrimFloat.eqb b 0%float then Raise ZeroDivisionError
  else Ok (PrimFloat.div a b).

(** [float(n)] for an [int]: round to nearest even, [OverflowError] when the
    result would not be finite. *)
Definition of_int (z : Z) : result float :=
  match binary_normalize prec emax z 0 false with
  | S754_infinity _ => Raise OverflowError
  | sf => Ok (SF2Prim sf)
  end.

Definition is_nan (x : float) : bool := negb (PrimFloat.eqb x x).

End PyFloat.

(** ** Reading Python values *)

Fixpoint assoc (k : string) (items : list (string * json)) : option json :=
  match items with
  | [] => None
  | (k', v) :: rest => if String.eqb k k' then Some v else assoc k rest
  end.

(** [d.get(k, default)]: only a [dict] has the method. *)
Definition dict_get (d : json) (k : string) (default : json) : result json :=
  match d with
  | JDict items =>
      match assoc k items with
      | Some v => Ok v
      | None => Ok default
      end
  | _ => Raise AttributeError
  end.

(** [v[k]] with a string key. *)
Definition getitem (v : json) (k : string) : result json :=
  match v with
  | JDict items =>
      match assoc k items with
      | Some x => Ok x
      | None => Raise KeyError
      end
  | _ => Raise TypeError
  end.

(** [v[0]]: a list or a string is indexed, a [dict] decoded from JSON has only
    string keys, anything else is not subscriptable. *)
Definition getitem0 (v : json) : result json :=
  match v with
  | JList (x :: _) => Ok x
  | JList [] => Raise IndexError
  | JStr (String c _) => Ok (JStr (String c EmptyString))
  | JStr EmptyString => Raise IndexError
  | JDict _ => Raise KeyError
  | _ => Raise TypeError
  end.

Definition is_str (k : string) (v : json) : bool :=
  match v with
  | JStr s => String.eqb s k
  | _ => false
  end.

Fixpoint is_substring (k s : string) : bool :=
  if String.prefix k s then true
  else match s with
       | EmptyString => false
       | String _ s' => is_substring k s'
       end.

(** [k in v] for a string [k]. *)
Definition contains (k : string) (v : json) : result bool :=
  match v with
  | JDict items =>
      Ok (match assoc k items with Some _ => true | None => false end)
  | JList l => Ok (existsb (is_str k) l)
  | JStr s => Ok (is_substring k s)
  | _ => Raise TypeError
  end.

(** Truth value of a Python object. *)
Definition truthy (v : json) : bool :=
  match v with
  | JNull => false
  | JBool b => b
  | JInt z => negb (Z.eqb z 0)
  | JFloat f => negb (PrimFloat.eqb f 0%float)
  | JStr s => negb (String.eqb s "")
  | JList l => match l with [] => false | _ => true end
  | JDict items => match items with [] => false | _ => true end
  end.

(** ** The interpreter state and its monad *)

(** The two endpoints.  [TOKEN_DETAILS_URL] is formatted with the value found
    under ['tokenAddress']; the request is identified by that value. *)
Inductive url : Type :=
| TOKEN_LIST_URL
| TOKEN_DETAILS_URL (tokenAddresses : json).

(** A response: its status and its decoded body. *)
Record response : Type := Response { status : Z; body : json }.

(** The lines the script prints, one constructor per [print] of the source. *)
Inductive line : Type :=
| NoPairsData (address : json)
| McapFdv (market_cap fdv : float)
| ErrorEvaluating (address : json) (e : exn)
| Monitoring (name : json) (price : float)
| Bought (name : json) (price : float)
| Sold (name : json) (price profit : float) (color : string)
| ErrorMonitoring (e : exn)
| NoValidTokens
| EvaluatedTokensHeader
| EvaluatedTokenLine (address name : json) (score : float)
| BestTokenSelected (name address : json).

(** The dictionary [evaluate_token] returns. *)
Record evaluated : Type := Evaluated {
  tokenAddress : json;
  tokenName : json;
  score : float
}.

(** Requests sent and draws made by the random generator so far, the lines
    printed (oldest first), the seconds spent in [asyncio.sleep], and the
    three local variables of [monitor_token]. *)
Record state : Type := State {
  requests : nat;
  draws : nat;
  stdout : list line;
  slept : Z;
  buy_price : option float;
  purchased_amount : float;
  current_balance : float
}.

Definition M (A : Type) : Type := state -> result A * state.

Definition ret {A} (a : A) : M A := fun st => (Ok a, st).

Definition raise {A} (e : exn) : M A := fun st => (Raise e, st).

Definition bind {A B} (m : M A) (k : A -> M B) : M B :=
  fun st =>
    match m st with
    | (Ok a, st') => k a st'
    | (Raise e, st') => (Raise e, st')
    end.

Definition lift {A} (r : result A) : M A := fun st => (r, st).

Declare Scope monad_scope.
Delimit Scope monad_scope with monad.
Notation "x <- m ;; k" := (bind m (fun x => k))
  (at level 61, m at next level, right associativity) : monad_scope.
Notation "m ;; k" := (bind m (fun _ => k))
  (at level 61, right associativity) : monad_scope.

(** [try: body except <classes>: handler]. *)
Definition try_except {A} (body : M A) (caught : exn -> bool)
    (handler : exn -> M A) : M A :=
  fun st =>
    match body st with
    | (Ok a, st') => (Ok a, st')
    | (Raise e, st') => if caught e then handler e st' else (Raise e, st')
    end.

(** Updates of one component of the state. *)
Definition add_request (st : state) : state :=
  State (S (requests st)) (draws st) (stdout st) (slept st)
        (buy_price st) (purchased_amount st) (current_balance st).

Definition add_draws (k : nat) (st : state) : state :=
  State (requests st) (draws st + k) (stdout st) (slept st)
        (buy_price st) (purchased_amount st) (current_balance st).

Definition add_line (l : line) (st : state) : state :=
  State (requests st) (draws st) (stdout st ++ [l]) (slept st)
        (buy_price st) (purchased_amount st) (current_balance st).

Definition add_sleep (seconds : Z) (st : state) : state :=
  State (requests st) (draws st) (stdout st) (slept st + seconds)
        (buy_price st) (purchased_amount st) (current_balance st).

Definition with_buy_price (p : option float) (st : state) : state :=
  State (requests st) (draws st) (stdout st) (slept st)
        p (purchased_amount st) (current_balance st).

Definition with_purchased_amount (a : float) (st : state) : state :=
  State (requests st) (draws st) (stdout st) (slept st)
        (buy_price st) a (current_balance st).

Definition with_current_balance (b : float) (st : state) : state :=
  State (requests st) (draws st) (stdout st) (slept st)
        (buy_price st) (purchased_amount st) b.

Definition modify (f : state -> state) : M unit := fun st => (Ok tt, f st).

Definition print (l : line) : M unit := modify (add_line l).

Definition sleep (seconds : Z) : M unit := modify (add_sleep seconds).

Definition get {A} (field : state -> A) : M A := fun st => (Ok (field st), st).

(** ** Parameters of the script *)

(** [INITIAL_BALANCE] is the [int] 200 in the source; the balance is only
    divided by a float and added to a float, where it stands for the float
    200.  The thresholds are the doubles nearest to 0.95 and 1.10. *)
Definition MONITOR_DURATION : Z := 60.
Definition FETCH_INTERVAL : Z := 10.
Definition INITIAL_BALANCE : float := 200%float.
Definition SELL_DROP_THRESHOLD : float := 0x1.e666666666666p-1%float.
Definition SELL_GAIN_THRESHOLD : float := 0x1.199999999999ap+0%float.

(** The weights of the score, the doubles nearest to 0.4, 0.3, 0.2 and 0.1. *)
Definition w_liquidity : float := 0x1.999999999999ap-2%float.
Definition w_volume : float := 0x1.3333333333333p-2%float.
Definition w_ratio : float := 0x1.999999999999ap-3%float.
Definition w_change : float := 0x1.999999999999ap-4%float.

(** ** The script *)

(** What stands for [random.sample]: from the number of draws the generator
    has made, a population and a size, the list returned or the exception
    raised, and the number of draws made meanwhile. *)
Definition sampler : Type :=
  nat -> list json -> nat -> result (list json) * nat.

Section Script.

(** The outside world: the response to the [n]-th request of the run; the
    library's [random.sample], which called for [k] items of a population
    when the generator has made [g] draws returns or raises, having made
    some more draws; and the reading of a string as a float by [float(...)]
    ([None]: [ValueError]). *)
Variable server : nat -> url -> response.
Variable sample : sampler.
Variable str_to_float : string -> option float.

Local Open Scope monad_scope.

(** [float(v)]. *)
Definition py_float (v : json) : result float :=
  match v with
  | JFloat f => Ok f
  | JInt z => PyFloat.of_int z
  | JBool b => Ok (if b then 1%float else 0%float)
  | JStr s =>
      match str_to_float s with
      | Some f => Ok f
      | None => Raise ValueError
      end
  | JNull | JList _ | JDict _ => Raise TypeError
  end.

(** *** [fetch_data] *)

(** One request: the status is tested, then the body is returned. *)
Definition fetch_data (u : url) : M json :=
  fun st =>
    let r := server (requests st) u in
    if Z.eqb (status r) 200 then (Ok (body r), add_request st)
    else (Raise (PlainException (status r)), add_request st).

(** *** [get_random_tokens] *)

(** [random.sample(population, k)]: the library's function, as it is. *)
Definition random_sample (population : list json) (k : nat)
  : M (list json) :=
  fun st =>
    let '(r, made) := sample (draws st) population k in
    (r, add_draws made st).

Definition get_random_tokens : M (list json) :=
  data <- fetch_data TOKEN_LIST_URL ;;
  match data with
  | JList l => random_sample l (Nat.min (List.length l) 15)
  | _ => raise FormatException
  end.

(** *** [evaluate_token] *)

(** The exception classes of the [except] clause of [evaluate_token]. *)
Definition evaluate_caught (e : exn) : bool :=
  match e with
  | KeyError | ZeroDivisionError | TypeError | ValueError => true
  | _ => false
  end.

(** The local variables set from the first pair (lines 57 to 73). *)
Record snapshot : Type := Snapshot {
  liquidity : float;
  volume_24h : float;
  buys_24h : float;
  sells_24h : float;
  buy_sell_ratio : float;
  fdv : float;
  price_change_24h : float;
  market_cap : float
}.

Definition extract (pair : json) : result snapshot :=
  (liquidity_d <-? dict_get pair "liquidity" (JDict []) ;;
   liquidity_v <-? dict_get liquidity_d "usd" (JInt 0) ;;
   liquidity <-? py_float liquidity_v ;;
   volume_d <-? dict_get pair "volume" (JDict []) ;;
   volume_v <-? dict_get volume_d "h24" (JInt 0) ;;
   volume_24h <-? py_float volume_v ;;
   txns_d <-? dict_get pair "txns" (JDict []) ;;
   txns <-? dict_get txns_d "h24" (JDict []) ;;
   buys_v <-? dict_get txns "buys" (JInt 0) ;;
   buys_24h <-? py_float buys_v ;;
   sells_v <-? dict_get txns "sells" (JInt 0) ;;
   sells_24h <-? py_float sells_v ;;
   buy_sell_ratio <-?
     PyFloat.truediv buys_24h (PyFloat.py_max sells_24h 1%float) ;;
   fdv_v <-? dict_get pair "fdv" (JInt 1) ;;
   fdv <-? py_float fdv_v ;;
   change_d <-? dict_get pair "priceChange" (JDict []) ;;
   change_v <-? dict_get change_d "h24" (JInt 0) ;;
   price_change_24h <-? py_float change_v ;;
   cap_v <-? dict_get pair "marketCap" (JFloat fdv) ;;
   market_cap <-? py_float cap_v ;;
   Ok (Snapshot liquidity volume_24h buys_24h sells_24h buy_sell_ratio
                fdv price_change_24h market_cap))%result.

(** Lines 77 to 82. *)
Definition compute_score (s : snapshot) : result float :=
  PyFloat.truediv
    (liquidity s * w_liquidity + volume_24h s * w_volume
     + buy_sell_ratio s * w_ratio + price_change_24h s * w_change)%float
    (PyFloat.py_max (fdv s) 1%float).

(** The body of the [try], in the order of the source.  The assignment
    [token["score"] = ...] changes a dictionary nobody reads afterwards and
    cannot fail here, [token] having answered [token['tokenAddress']]. *)
Definition evaluate_token_body (token : json) : M (option evaluated) :=
  address <- lift (getitem token "tokenAddress") ;;
  token_data <- fetch_data (TOKEN_DETAILS_URL address) ;;
  has_pairs <- lift (contains "pairs" token_data) ;;
  no_pairs <- (if negb has_pairs then ret true
               else pairs <- lift (getitem token_data "pairs") ;;
                    ret (negb (truthy pairs))) ;;
  if (no_pairs : bool) then
    shown <- lift (dict_get token "tokenAddress" JNull) ;;
    print (NoPairsData shown) ;;
    ret None
  else
    pairs <- lift (getitem token_data "pairs") ;;
    pair <- lift (getitem0 pairs) ;;
    s <- lift (extract pair) ;;
    print (McapFdv (market_cap s) (fdv s)) ;;
    score <- lift (compute_score s) ;;
    address' <- lift (getitem token "tokenAddress") ;;
    pairs' <- lift (getitem token_data "pairs") ;;
    pair' <- lift (getitem0 pairs') ;;
    base <- lift (getitem pair' "baseToken") ;;
    symbol <- lift (getitem base "symbol") ;;
    ret (Some (Evaluated address' symbol score)).

Definition evaluate_token (token : json) : M (option evaluated) :=
  try_except (evaluate_token_body token) evaluate_caught
    (fun e =>
       shown <- lift (dict_get token "tokenAddress" JNull) ;;
       print (ErrorEvaluating shown e) ;;
       ret None).

(** *** [monitor_token] *)

(** The test of line 126. *)
Definition sell_condition (bought price : float) : bool :=
  PrimFloat.leb price (bought * SELL_DROP_THRESHOLD)
  || PrimFloat.leb (bought * SELL_GAIN_THRESHOLD) price.

(** Lines 114 and 115: the symbol, then the price, each read from
    [token_data["pairs"][0]]. *)
Definition read_quote (token_data : json) : result (json * float) :=
  (pairs <-? getitem token_data "pairs" ;;
   pair <-? getitem0 pairs ;;
   base <-? getitem pair "baseToken" ;;
   token_name <-? getitem base "symbol" ;;
   pairs' <-? getitem token_data "pairs" ;;
   pair' <-? getitem0 pairs' ;;
   price_v <-? getitem pair' "priceUsd" ;;
   price <-? py_float price_v ;;
   Ok (token_name, price))%result.

(** Lines 120 to 123: the initial buy.  [buy_price] is assigned before the
    division is attempted. *)
Definition initial_buy (token_name : json) (price : float) : M unit :=
  held <- get buy_price ;;
  match held with
  | None =>
      modify (with_buy_price (Some price)) ;;
      balance <- get current_balance ;;
      amount <- lift (PyFloat.truediv balance price) ;;
      modify (with_purchased_amount amount) ;;
      print (Bought token_name price)
  | Some _ => ret tt
  end.

(** Lines 126 to 134: sell and return, or sleep.  [true] when the turn ends
    in [return]. *)
Definition sell_or_sleep (token_name : json) (price : float) : M bool :=
  held <- get buy_price ;;
  match held with
  | None => raise TypeError
  | Some bought =>
      if sell_condition bought price then
        amount <- get purchased_amount ;;
        let profit := ((price - bought) * amount)%float in
        balance <- get current_balance ;;
        modify (with_current_balance (balance + profit)%float) ;;
        print (Sold token_name price profit
                 (if PrimFloat.ltb profit 0%float then "red" else "green")) ;;
        ret true
      else
        sleep FETCH_INTERVAL ;;
        ret false
  end.

(** The body of the [try] of one turn of the loop. *)
Definition monitor_body (token : evaluated) : M bool :=
  token_data <- fetch_data (TOKEN_DETAILS_URL (tokenAddress token)) ;;
  quote <- lift (read_quote token_data) ;;
  let '(token_name, price) := quote in
  print (Monitoring token_name price) ;;
  initial_buy token_name price ;;
  sell_or_sleep token_name price.

(** One turn of [while True]: the [try] and its [except Exception]. *)
Definition monitor_turn (token : evaluated) : M bool :=
  try_except (monitor_body token) (fun _ => true)
    (fun e => print (ErrorMonitoring e) ;; ret true).

(** How far a call got: it returned, or it is still looping when the turns
    granted are used up. *)
Inductive progress : Type := Returned | Looping.

Fixpoint monitor_loop (turns : nat) (token : evaluated) : M progress :=
  match turns with
  | O => ret Looping
  | S turns' =>
      stop <- monitor_turn token ;;
      if (stop : bool) then ret Returned else monitor_loop turns' token
  end.

(** Lines 103 to 105, then the loop. *)
Definition init_locals : M unit :=
  modify (fun st =>
            with_current_balance INITIAL_BALANCE
              (with_purchased_amount 0%float (with_buy_price None st))).

Definition monitor_token (turns : nat) (token : evaluated) : M progress :=
  init_locals ;;
  monitor_loop turns token.

(** *** [main] *)

(** The [for] loop of lines 146 to 150; the dictionary returned by
    [evaluate_token] is never empty, hence always kept. *)
Fixpoint evaluate_tokens (tokens : list json) : M (list evaluated) :=
  match tokens with
  | [] => ret []
  | token :: rest =>
      evaluated_token <- evaluate_token token ;;
      evaluated_tokens <- evaluate_tokens rest ;;
      ret (match evaluated_token with
           | Some e => e :: evaluated_tokens
           | None => evaluated_tokens
           end)
  end.

Fixpoint print_evaluated (tokens : list evaluated) : M unit :=
  match tokens with
  | [] => ret tt
  | t :: rest =>
      print (EvaluatedTokenLine (tokenAddress t) (tokenName t) (score t)) ;;
      print_evaluated rest
  end.

(** [max(..., key=lambda x: x["score"])]: the running best is replaced only
    by a strictly greater score. *)
Fixpoint max_from (best : evaluated) (rest : list evaluated) : evaluated :=
  match rest with
  | [] => best
  | x :: rest' =>
      if PrimFloat.ltb (score best) (score x) then max_from x rest'
      else max_from best rest'
  end.

Definition max_by_score (tokens : list evaluated) : result evaluated :=
  match tokens with
  | [] => Raise ValueError
  | x :: rest => Ok (max_from x rest)
  end.

Definition main (turns : nat) : M progress :=
  random_tokens <- get_random_tokens ;;
  evaluated_tokens <- evaluate_tokens random_tokens ;;
  match evaluated_tokens with
  | [] =>
      print NoValidTokens ;;
      ret Returned
  | _ =>
      print EvaluatedTokensHeader ;;
      print_evaluated evaluated_tokens ;;
      best_token <- lift (max_by_score evaluated_tokens) ;;
      print (BestTokenSelected (tokenName best_token)
               (tokenAddress best_token)) ;;
      monitor_token turns best_token
  end.

(** The state [asyncio.run(main())] starts from. *)
Definition start : state :=
  State 0 0 [] 0 None 0%float INITIAL_BALANCE.

End Script.

(** * Facts about the comparisons of floats *)

Module FloatFacts.

Local Open Scope Z_scope.

(** A float that is not a NaN sits at one point of a line: rank of its
    class, then exponent, then mantissa. *)
Definition key (x : spec_float) : option (Z * Z * Z) :=
  match x with
  | S754_nan => None
  | S754_infinity true => Some (-2, 0, 0)
  | S754_finite true m e => Some (-1, - e, Z.neg m)
  | S754_zero _ => Some (0, 0, 0)
  | S754_finite false m e => Some (1, e, Z.pos m)
  | S754_infinity false => Some (2, 0, 0)
  end.

Definition below (p q : option (Z * Z * Z)) : Prop :=
  match p, q with
  | Some (a, b, c), Some (a', b', c') =>
      a < a' \/ (a = a' /\ (b < b' \/ (b = b' /\ c < c')))
  | _, _ => False
  end.

Definition level (p q : option (Z * Z * Z)) : Prop :=
  match p, q with
  | Some (a, b, c), Some (a', b', c') => a = a' /\ b = b' /\ c = c'
  | _, _ => False
  end.

Lemma SFcompare_key (x y : spec_float) :
  match SFcompare x y with
  | None => key x = None \/ key y = None
  | Some Lt => below (key x) (key y)
  | Some Eq => level (key x) (key y)
  | Some Gt => below (key y) (key x)
  end.
Proof.
  destruct x as [sx | sx | | sx mx ex], y as [sy | sy | | sy my ey];
    try destruct sx; try destruct sy; cbn; auto; try lia.
  - destruct (Z.compare_spec ex ey); cbn; try lia.
    rewrite Pos.compare_cont_spec; cbn.
    destruct (Pos.compare_spec mx my); cbn; subst; lia.
  - destruct (Z.compare_spec ex ey); cbn; try lia.
    rewrite Pos.compare_cont_spec; cbn.
    destruct (Pos.compare_spec mx my); cbn; subst; lia.
Qed.

Definition rank (x : float) : option (Z * Z * Z) := key (Prim2SF x).

Ltac triples :=
  unfold below, level in *;
  repeat match goal with
         | H : context [rank ?x] |- _ =>
             destruct (rank x) as [[[? ?] ?] | ]
         | |- context [rank ?x] =>
             destruct (rank x) as [[[? ?] ?] | ]
         end;
  try tauto; try lia.

Lemma compare_rank (x y : float) :
  match SFcompare (Prim2SF x) (Prim2SF y) with
  | None => rank x = None \/ rank y = None
  | Some Lt => below (rank x) (rank y)
  | Some Eq => level (rank x) (rank y)
  | Some Gt => below (rank y) (rank x)
  end.
Proof. apply SFcompare_key. Qed.

Lemma ltb_rank (x y : float) :
  PrimFloat.ltb x y = true <-> below (rank x) (rank y).
Proof.
  rewrite ltb_spec. unfold SFltb.
  pose proof (compare_rank x y) as H.
  destruct (SFcompare (Prim2SF x) (Prim2SF y)) as [[ | | ] | ];
    split; intro G; try discriminate; try reflexivity; auto;
    try (destruct H as [H | H]; rewrite H in G); triples.
Qed.

Lemma eqb_rank (x y : float) :
  PrimFloat.eqb x y = true <-> level (rank x) (rank y).
Proof.
  rewrite eqb_spec. unfold SFeqb.
  pose proof (compare_rank x y) as H.
  destruct (SFcompare (Prim2SF x) (Prim2SF y)) as [[ | | ] | ];
    split; intro G; try discriminate; try reflexivity; auto;
    try (destruct H as [H | H]; rewrite H in G); triples.
Qed.

Lemma leb_rank (x y : float) :
  PrimFloat.leb x y = true
  <-> below (rank x) (rank y) \/ level (rank x) (rank y).
Proof.
  rewrite leb_spec. unfold SFleb.
  pose proof (compare_rank x y) as H.
  destruct (SFcompare (Prim2SF x) (Prim2SF y)) as [[ | | ] | ];
    split; intro G; try discriminate; try reflexivity; auto;
    try (destruct H as [H | H]; rewrite H in G); triples.
Qed.

Lemma ltb_rank_false (x y : float) :
  PrimFloat.ltb x y = false <-> ~ below (rank x) (rank y).
Proof.
  rewrite <- ltb_rank. destruct (PrimFloat.ltb x y); split; intro H;
    try reflexivity; try discriminate; congruence.
Qed.

Lemma eqb_rank_false (x y : float) :
  PrimFloat.eqb x y = false <-> ~ level (rank x) (rank y).
Proof.
  rewrite <- eqb_rank. destruct (PrimFloat.eqb x y); split; intro H;
    try reflexivity; try discriminate; congruence.
Qed.

(** Turns the comparisons of the context and of the goal into statements
    about ranks and leaves them to [lia]. *)
Ltac order :=
  repeat match goal with
         | H : PrimFloat.ltb _ _ = true |- _ => apply ltb_rank in H
         | H : PrimFloat.eqb _ _ = true |- _ => apply eqb_rank in H
         | H : PrimFloat.leb _ _ = true |- _ => apply leb_rank in H
         | H : PrimFloat.ltb _ _ = false |- _ => apply ltb_rank_false in H
         | H : PrimFloat.eqb _ _ = false |- _ => apply eqb_rank_false in H
         | |- PrimFloat.ltb _ _ = true => apply ltb_rank
         | |- PrimFloat.eqb _ _ = true => apply eqb_rank
         | |- PrimFloat.leb _ _ = true => apply leb_rank
         | |- PrimFloat.ltb _ _ = false => apply ltb_rank_false
         | |- PrimFloat.eqb _ _ = false => apply eqb_rank_false
         end;
  triples.

Lemma ltb_irrefl (x : float) : PrimFloat.ltb x x = false.
Proof. order. Qed.

Lemma ltb_trans (x y z : float) :
  PrimFloat.ltb x y = true -> PrimFloat.ltb y z = true ->
  PrimFloat.ltb x z = true.
Proof. intros; order. Qed.

(** Scores that compare equal stand in the same comparisons. *)
Lemma eqb_ltb_l (x y z : float) :
  PrimFloat.eqb x y = true -> PrimFloat.ltb x z = true ->
  PrimFloat.ltb y z = true.
Proof. intros; order. Qed.

Lemma eqb_ltb_r (x y z : float) :
  PrimFloat.eqb x y = true -> PrimFloat.ltb z y = true ->
  PrimFloat.ltb z x = true.
Proof. intros; order. Qed.

Lemma ltb_not_eqb (x y : float) :
  PrimFloat.ltb x y = true -> PrimFloat.eqb x y = false.
Proof. intros; order. Qed.

(** Among floats that are not NaN the order is total. *)
Lemma ltb_total (x y : float) :
  PyFloat.is_nan x = false -> PyFloat.is_nan y = false ->
  PrimFloat.ltb x y = false -> PrimFloat.leb y x = true.
Proof.
  unfold PyFloat.is_nan. intros Hx Hy L.
  apply negb_false_iff in Hx, Hy. order.
Qed.

(** [max(x, 1)] never compares equal to zero. *)
Lemma max_one_nonzero (x : float) :
  PrimFloat.eqb (PyFloat.py_max x 1%float) 0%float = false.
Proof.
  unfold PyFloat.py_max.
  destruct (PrimFloat.ltb x 1%float) eqn:E; [reflexivity | ].
  rewrite ltb_spec in E. rewrite eqb_spec.
  change (Prim2SF 1%float) with (S754_finite false 4503599627370496 (-52)) in E.
  change (Prim2SF 0%float) with (S754_zero false).
  destruct (Prim2SF x) as [s | [ | ] | | s m e]; try reflexivity.
  - destruct s; discriminate.
  - destruct s; reflexivity.
Qed.

Lemma truediv_max_one (a x : float) :
  PyFloat.truediv a (PyFloat.py_max x 1%float)
  = Ok (a / PyFloat.py_max x 1%float)%float.
Proof. unfold PyFloat.truediv. now rewrite max_one_nonzero. Qed.

End FloatFacts.

(** * The evaluator *)

(** The value found by following [path] through nested dictionaries with
    [.get], every step but the last falling back on an empty dictionary and the
    last one on [default]. *)
Fixpoint get_path (v : json) (path : list string) (default : json)
  : result json :=
  match path with
  | [] => Ok v
  | [k] => dict_get v k default
  | k :: rest => (d <-? dict_get v k (JDict []) ;; get_path d rest default)%result
  end.

(** A key of [path] is missing from the dictionary reached so far. *)
Fixpoint absent (v : json) (path : list string) : bool :=
  match path with
  | [] => false
  | k :: rest =>
      match v with
      | JDict items =>
          match assoc k items with
          | None => true
          | Some x => absent x rest
          end
      | _ => false
      end
  end.

(** The float read at the end of [path]. *)
Definition number_at (str_to_float : string -> option float) (pair : json)
    (path : list string) (default : json) : result float :=
  (v <-? get_path pair path default ;; py_float str_to_float v)%result.

(** The formula of the score. *)
Definition score_formula (liquidity volume_24h buys_24h sells_24h fdv
    price_change_24h : float) : float :=
  ((liquidity * w_liquidity + volume_24h * w_volume
    + (buys_24h / PyFloat.py_max sells_24h 1) * w_ratio
    + price_change_24h * w_change)
   / PyFloat.py_max fdv 1)%float.

Lemma rbind_ok {A B} (r : result A) (k : A -> result B) (b : B) :
  rbind r k = Ok b -> exists a, r = Ok a /\ k a = Ok b.
Proof. destruct r as [a | e]; cbn; [eauto | discriminate]. Qed.

Section Evaluator.

Variable server : nat -> url -> response.
Variable str_to_float : string -> option float.

Lemma extract_numbers (pair : json) (l v b s f p m : float) :
  number_at str_to_float pair ["liquidity"; "usd"] (JInt 0) = Ok l ->
  number_at str_to_float pair ["volume"; "h24"] (JInt 0) = Ok v ->
  number_at str_to_float pair ["txns"; "h24"; "buys"] (JInt 0) = Ok b ->
  number_at str_to_float pair ["txns"; "h24"; "sells"] (JInt 0) = Ok s ->
  number_at str_to_float pair ["fdv"] (JInt 1) = Ok f ->
  number_at str_to_float pair ["priceChange"; "h24"] (JInt 0) = Ok p ->
  number_at str_to_float pair ["marketCap"] (JFloat f) = Ok m ->
  extract str_to_float pair
  = Ok (Snapshot l v b s (b / PyFloat.py_max s 1)%float f p m).
Proof.
  unfold number_at, get_path, extract.
  intros Hl Hv Hb Hs Hf Hp Hm.
  repeat match goal with
         | H : rbind _ _ = Ok _ |- _ =>
             apply rbind_ok in H; destruct H as (? & ? & H)
         end.
  repeat match goal with
         | H : ?x = Ok _ |- context [?x] => rewrite H; cbn [rbind]
         | H : ?x = Ok _, H' : ?x = Ok _ |- _ =>
             rewrite H in H'; injection H' as <-
         end.
  rewrite FloatFacts.truediv_max_one. cbn [rbind].
  repeat match goal with
         | H : ?x = Ok _ |- context [?x] => rewrite H; cbn [rbind]
         end.
  reflexivity.
Qed.

Lemma compute_score_ok (s : snapshot) :
  compute_score s
  = Ok ((liquidity s * w_liquidity + volume_24h s * w_volume
         + buy_sell_ratio s * w_ratio + price_change_24h s * w_change)
        / PyFloat.py_max (fdv s) 1)%float.
Proof. unfold compute_score. apply FloatFacts.truediv_max_one. Qed.

Lemma getitem_contains (v : json) (k : string) (x : json) :
  getitem v k = Ok x -> contains k v = Ok true.
Proof.
  destruct v; cbn; try discriminate.
  destruct (assoc k items); [reflexivity | discriminate].
Qed.

(** A successful run of the [try] of [evaluate_token]. *)
Lemma evaluate_token_returns (token address token_data pair base
    name : json) (more : list json) (s : snapshot) (st : state) :
  getitem token "tokenAddress" = Ok address ->
  server (requests st) (TOKEN_DETAILS_URL address) = Response 200 token_data ->
  getitem token_data "pairs" = Ok (JList (pair :: more)) ->
  extract str_to_float pair = Ok s ->
  getitem pair "baseToken" = Ok base ->
  getitem base "symbol" = Ok name ->
  evaluate_token server str_to_float token st
  = (Ok (Some (Evaluated address name
                 ((liquidity s * w_liquidity + volume_24h s * w_volume
                   + buy_sell_ratio s * w_ratio
                   + price_change_24h s * w_change)
                  / PyFloat.py_max (fdv s) 1)%float)),
     add_line (McapFdv (market_cap s) (fdv s)) (add_request st)).
Proof.
  intros Ha Hr Hp He Hb Hn.
  unfold evaluate_token, try_except, evaluate_token_body, bind, lift,
    fetch_data, print, ret.
  rewrite Ha, Hr. cbn [status body Z.eqb Pos.eqb].
  rewrite (getitem_contains _ _ _ Hp). cbn [negb].
  rewrite Hp. cbn [truthy negb getitem0].
  rewrite He, compute_score_ok, Hb, Hn.
  reflexivity.
Qed.

(** What [extract] returned was read field by field. *)
Lemma extract_inv (pair : json) (s : snapshot) :
  extract str_to_float pair = Ok s ->
  number_at str_to_float pair ["liquidity"; "usd"] (JInt 0)
  = Ok (liquidity s)
  /\ number_at str_to_float pair ["volume"; "h24"] (JInt 0)
     = Ok (volume_24h s)
  /\ number_at str_to_float pair ["txns"; "h24"; "buys"] (JInt 0)
     = Ok (buys_24h s)
  /\ number_at str_to_float pair ["txns"; "h24"; "sells"] (JInt 0)
     = Ok (sells_24h s)
  /\ number_at str_to_float pair ["fdv"] (JInt 1) = Ok (fdv s)
  /\ number_at str_to_float pair ["priceChange"; "h24"] (JInt 0)
     = Ok (price_change_24h s)
  /\ number_at str_to_float pair ["marketCap"] (JFloat (fdv s))
     = Ok (market_cap s).
Proof.
  unfold extract, number_at, get_path. intro H.
  repeat match goal with
         | H : rbind _ _ = Ok _ |- _ =>
             apply rbind_ok in H; destruct H as (? & ? & H)
         end.
  injection H as <-. cbn [liquidity volume_24h buys_24h sells_24h fdv
                           price_change_24h market_cap].
  repeat match goal with
         | H : ?x = Ok _ |- context [?x] => rewrite H; cbn [rbind]
         end.
  repeat split; reflexivity.
Qed.

End Evaluator.

(** The snapshot of the worked example: liquidity 1000, volume 500, 10 buys,
    5 sells, FDV 2000, price change 3. *)
Definition example_pair : json :=
  JDict [("liquidity", JDict [("usd", JInt 1000)]);
         ("volume", JDict [("h24", JInt 500)]);
         ("txns", JDict [("h24", JDict [("buys", JInt 10); ("sells", JInt 5)])]);
         ("fdv", JInt 2000);
         ("priceChange", JDict [("h24", JInt 3)]);
         ("baseToken", JDict [("symbol", JStr "MEME")])].

Definition example_token : json := JDict [("tokenAddress", JStr "0xA1")].

Definition example_server (_ : nat) (_ : url) : response :=
  Response 200 (JDict [("pairs", JList [example_pair])]).

Definition no_strings (_ : string) : option float := None.

(** The double written [0.27535]. *)
Definition example_score : float := 0x1.19f559b3d07c8p-2%float.

(** C1.  When the fields of the first pair convert to floats, the evaluator
    returns the score
    [(liquidity*0.4 + volume24h*0.3 + (buys24h / max(sells24h, 1))*0.2
      + priceChange24h*0.1) / max(fdv, 1)], determined by the six numbers
    alone; no division raises, the divisors being floored at 1, and with no
    sells the ratio is [buys24h / 1]; the worked example scores exactly
    0.27535. *)
Theorem evaluate_token_score :
  (forall server str_to_float token address token_data pair base name more
          l v b s f p m st,
      getitem token "tokenAddress" = Ok address ->
      server (requests st) (TOKEN_DETAILS_URL address)
      = Response 200 token_data ->
      getitem token_data "pairs" = Ok (JList (pair :: more)) ->
      getitem pair "baseToken" = Ok base ->
      getitem base "symbol" = Ok name ->
      number_at str_to_float pair ["liquidity"; "usd"] (JInt 0) = Ok l ->
      number_at str_to_float pair ["volume"; "h24"] (JInt 0) = Ok v ->
      number_at str_to_float pair ["txns"; "h24"; "buys"] (JInt 0) = Ok b ->
      number_at str_to_float pair ["txns"; "h24"; "sells"] (JInt 0) = Ok s ->
      number_at str_to_float pair ["fdv"] (JInt 1) = Ok f ->
      number_at str_to_float pair ["priceChange"; "h24"] (JInt 0) = Ok p ->
      number_at str_to_float pair ["marketCap"] (JFloat f) = Ok m ->
      evaluate_token server str_to_float token st
      = (Ok (Some (Evaluated address name (score_formula l v b s f p))),
         add_line (McapFdv m f) (add_request st)))
  /\ (forall b : float,
        PyFloat.truediv b (PyFloat.py_max 0 1) = Ok (b / 1)%float)
  /\ score_formula 1000 500 10 5 2000 3 = example_score
  /\ fst (evaluate_token example_server no_strings example_token start)
     = Ok (Some (Evaluated (JStr "0xA1") (JStr "MEME") example_score)).
Proof.
  split; [ | split; [ | split]].
  - intros server str_to_float token address token_data pair base name more
      l v b s f p m st Ha Hr Hp Hb Hn Hl Hv Hbuys Hs Hf Hc Hm.
    rewrite (evaluate_token_returns server str_to_float token address
               token_data pair base name more _ st Ha Hr Hp
               (extract_numbers str_to_float pair l v b s f p m
                  Hl Hv Hbuys Hs Hf Hc Hm) Hb Hn).
    reflexivity.
  - intro b. reflexivity.
  - vm_compute. reflexivity.
  - vm_compute. reflexivity.
Qed.

Lemma evaluate_token_score_witness :
  evaluate_token example_server no_strings example_token start
  = (Ok (Some (Evaluated (JStr "0xA1") (JStr "MEME")
                 (score_formula 1000 500 10 5 2000 3))),
     add_line (McapFdv 2000 2000) (add_request start)).
Proof.
  apply (proj1 evaluate_token_score example_server no_strings example_token
           (JStr "0xA1") (JDict [("pairs", JList [example_pair])])
           example_pair (JDict [("symbol", JStr "MEME")]) (JStr "MEME") []
           1000%float 500%float 10%float 5%float 2000%float 3%float
           2000%float start);
    reflexivity.
Defined.

(** ** Defaults of the extraction *)

Lemma get_path_empty (path : list string) (default : json) :
  path <> [] -> get_path (JDict []) path default = Ok default.
Proof.
  induction path as [ | k [ | k' rest] IH]; intro N.
  - contradiction.
  - reflexivity.
  - cbn [get_path dict_get assoc rbind]. apply IH. discriminate.
Qed.

Lemma get_path_absent (path : list string) (v default : json) :
  absent v path = true -> get_path v path default = Ok default.
Proof.
  revert v. induction path as [ | k [ | k' rest] IH]; intros v A.
  - discriminate.
  - destruct v; try discriminate. cbn in A |- *.
    destruct (assoc k items); [discriminate | reflexivity].
  - destruct v; try discriminate.
    cbn [absent] in A. cbn [get_path dict_get].
    destruct (assoc k items) as [x | ]; cbn [rbind].
    + apply IH. exact A.
    + change (get_path (JDict []) (k' :: rest) default = Ok default).
      apply get_path_empty. discriminate.
Qed.

Lemma number_at_absent (str_to_float : string -> option float) (pair : json)
    (path : list string) (default : json) :
  absent pair path = true ->
  number_at str_to_float pair path default = py_float str_to_float default.
Proof.
  intro A. unfold number_at. now rewrite (get_path_absent _ _ _ A).
Qed.

Lemma float_of_zero (str_to_float : string -> option float) :
  py_float str_to_float (JInt 0) = Ok 0%float.
Proof. reflexivity. Qed.

Lemma float_of_one (str_to_float : string -> option float) :
  py_float str_to_float (JInt 1) = Ok 1%float.
Proof. vm_compute. reflexivity. Qed.

(** A pair object with none of the six keys read by the extraction. *)
Definition bare (items : list (string * json)) : Prop :=
  assoc "liquidity" items = None /\ assoc "volume" items = None
  /\ assoc "txns" items = None /\ assoc "fdv" items = None
  /\ assoc "priceChange" items = None /\ assoc "marketCap" items = None.

(** C4.  A field whose key is missing is read as its default and the read
    raises nothing: 0 for the liquidity, the volume, the buys, the sells and
    the price change, 1 for the FDV, and the FDV just read (itself possibly the
    default) for the market cap. *)
Theorem extract_defaults :
  forall (str_to_float : string -> option float) (pair : json),
    (* every read of a missing field succeeds with the default *)
    (absent pair ["liquidity"; "usd"] = true ->
     number_at str_to_float pair ["liquidity"; "usd"] (JInt 0) = Ok 0%float)
    /\ (absent pair ["volume"; "h24"] = true ->
        number_at str_to_float pair ["volume"; "h24"] (JInt 0) = Ok 0%float)
    /\ (absent pair ["txns"; "h24"; "buys"] = true ->
        number_at str_to_float pair ["txns"; "h24"; "buys"] (JInt 0)
        = Ok 0%float)
    /\ (absent pair ["txns"; "h24"; "sells"] = true ->
        number_at str_to_float pair ["txns"; "h24"; "sells"] (JInt 0)
        = Ok 0%float)
    /\ (absent pair ["fdv"] = true ->
        number_at str_to_float pair ["fdv"] (JInt 1) = Ok 1%float)
    /\ (absent pair ["priceChange"; "h24"] = true ->
        number_at str_to_float pair ["priceChange"; "h24"] (JInt 0)
        = Ok 0%float)
    /\ (forall f : float,
          absent pair ["marketCap"] = true ->
          number_at str_to_float pair ["marketCap"] (JFloat f) = Ok f)
    (* hence, in what the extraction returns *)
    /\ (forall s : snapshot,
          extract str_to_float pair = Ok s ->
          (absent pair ["liquidity"; "usd"] = true -> liquidity s = 0%float)
          /\ (absent pair ["volume"; "h24"] = true -> volume_24h s = 0%float)
          /\ (absent pair ["txns"; "h24"; "buys"] = true ->
              buys_24h s = 0%float)
          /\ (absent pair ["txns"; "h24"; "sells"] = true ->
              sells_24h s = 0%float)
          /\ (absent pair ["fdv"] = true -> fdv s = 1%float)
          /\ (absent pair ["priceChange"; "h24"] = true ->
              price_change_24h s = 0%float)
          /\ (absent pair ["marketCap"] = true -> market_cap s = fdv s))
    (* and an object with none of the keys is extracted without an error *)
    /\ (forall items,
          pair = JDict items -> bare items ->
          extract str_to_float pair
          = Ok (Snapshot 0 0 0 0 0 1 0 1)).
Proof.
  intros str_to_float pair.
  assert (Z0 : forall path, absent pair path = true ->
                 number_at str_to_float pair path (JInt 0) = Ok 0%float).
  { intros path A. now rewrite number_at_absent. }
  assert (Z1 : absent pair ["fdv"] = true ->
               number_at str_to_float pair ["fdv"] (JInt 1) = Ok 1%float).
  { intros A. rewrite number_at_absent by assumption. apply float_of_one. }
  assert (ZF : forall f, absent pair ["marketCap"] = true ->
                 number_at str_to_float pair ["marketCap"] (JFloat f) = Ok f).
  { intros f A. now rewrite number_at_absent. }
  repeat match goal with |- _ /\ _ => split end; auto.
  - intros s E.
    destruct (extract_inv str_to_float pair s E)
      as (Hl & Hv & Hb & Hs & Hf & Hp & Hm).
    repeat split; intro A.
    + rewrite (Z0 _ A) in Hl. congruence.
    + rewrite (Z0 _ A) in Hv. congruence.
    + rewrite (Z0 _ A) in Hb. congruence.
    + rewrite (Z0 _ A) in Hs. congruence.
    + rewrite (Z1 A) in Hf. congruence.
    + rewrite (Z0 _ A) in Hp. congruence.
    + rewrite (ZF _ A) in Hm. congruence.
  - intros items -> (Hl & Hv & Ht & Hf & Hp & Hm).
    rewrite (extract_numbers str_to_float (JDict items) 0 0 0 0 1 0 1).
    + reflexivity.
    + apply Z0. cbn. now rewrite Hl.
    + apply Z0. cbn. now rewrite Hv.
    + apply Z0. cbn. now rewrite Ht.
    + apply Z0. cbn. now rewrite Ht.
    + apply Z1. cbn. now rewrite Hf.
    + apply Z0. cbn. now rewrite Hp.
    + apply ZF. cbn. now rewrite Hm.
Qed.

(** An object carrying only an FDV of 7: the market cap falls back on it, the
    other fields on their defaults. *)
Lemma extract_defaults_witness :
  extract no_strings (JDict [("fdv", JInt 7)])
  = Ok (Snapshot 0 0 0 0 0 7 0 7)
  /\ market_cap (Snapshot 0 0 0 0 0 7 0 7) = fdv (Snapshot 0 0 0 0 0 7 0 7).
Proof.
  split; [reflexivity | ].
  refine (proj2 (proj2 (proj2 (proj2 (proj2 (proj2
            (proj1 (proj2 (proj2 (proj2 (proj2 (proj2 (proj2 (proj2
               (extract_defaults no_strings (JDict [("fdv", JInt 7)])))))))))
               (Snapshot 0 0 0 0 0 7 0 7) _)))))) _); reflexivity.
Defined.

(** * The position monitor *)

(** The state once a position is entered at [price] with the balance of
    [st]. *)
Definition entered (token_name : json) (price : float) (st : state) : state :=
  add_line (Bought token_name price)
    (with_purchased_amount (current_balance st / price)%float
       (with_buy_price (Some price) st)).

(** The state once the position bought at [bought] is sold at [price]. *)
Definition sold (token_name : json) (bought price : float) (st : state)
  : state :=
  let profit := ((price - bought) * purchased_amount st)%float in
  add_line (Sold token_name price profit
              (if PrimFloat.ltb profit 0%float then "red" else "green"))
    (with_current_balance (current_balance st + profit)%float st).

Section Monitor.

Variable server : nat -> url -> response.
Variable str_to_float : string -> option float.
Variable token : evaluated.

(** Request number [n], a poll of the monitor, is answered with [name] and
    [price]. *)
Definition quoted (n : nat) (name : json) (price : float) : Prop :=
  exists token_data,
    server n (TOKEN_DETAILS_URL (tokenAddress token))
    = Response 200 token_data
    /\ read_quote str_to_float token_data = Ok (name, price).

(** Request number [n], a poll of the monitor, fails with [e]: a status
    other than 200, or a body from which the symbol or the price cannot be
    read. *)
Definition failed (n : nat) (e : exn) : Prop :=
  let r := server n (TOKEN_DETAILS_URL (tokenAddress token)) in
  (Z.eqb (status r) 200 = false /\ e = PlainException (status r))
  \/ (Z.eqb (status r) 200 = true /\ read_quote str_to_float (body r) = Raise e).

Lemma poll_cases (n : nat) :
  (exists e, failed n e) \/ (exists name price, quoted n name price).
Proof.
  unfold failed, quoted.
  destruct (server n (TOKEN_DETAILS_URL (tokenAddress token)))
    as [code data] eqn:R.
  cbn [status body].
  destruct (Z.eqb code 200) eqn:C.
  - apply Z.eqb_eq in C. subst code.
    destruct (read_quote str_to_float data) as [[name price] | e] eqn:Q.
    + right. exists name, price, data. split; [reflexivity | exact Q].
    + left. exists e. right. split; [reflexivity | reflexivity].
  - left. exists (PlainException code). left. split; reflexivity.
Qed.

Lemma turn_failed (st : state) (e : exn) :
  failed (requests st) e ->
  monitor_turn server str_to_float token st
  = (Ok true, add_line (ErrorMonitoring e) (add_request st)).
Proof.
  unfold failed, monitor_turn, try_except, monitor_body, bind, lift,
    fetch_data.
  intros [[C ->] | [C Q]]; rewrite C; [reflexivity | ].
  rewrite Q. reflexivity.
Qed.

(** A turn that holds a position: sell and return, or sleep and go on. *)
Lemma turn_holding (st : state) (name : json) (price bought : float) :
  quoted (requests st) name price ->
  buy_price st = Some bought ->
  monitor_turn server str_to_float token st
  = if sell_condition bought price
    then (Ok true,
          sold name bought price (add_line (Monitoring name price)
                                    (add_request st)))
    else (Ok false,
          add_sleep FETCH_INTERVAL (add_line (Monitoring name price)
                                      (add_request st))).
Proof.
  intros (data & R & Q) B.
  unfold monitor_turn, try_except, monitor_body, bind, lift, fetch_data.
  rewrite R. cbn [status body Z.eqb Pos.eqb]. rewrite Q.
  unfold initial_buy, sell_or_sleep, print, sleep, modify, get, bind, ret.
  cbn [buy_price add_line add_request]. rewrite B.
  cbn [buy_price add_line add_request]. rewrite B.
  destruct (sell_condition bought price); reflexivity.
Qed.

(** The first turn that reads a price of zero: the division raises after
    [buy_price] is set. *)
Lemma turn_entry_zero (st : state) (name : json) (price : float) :
  quoted (requests st) name price ->
  buy_price st = None ->
  PrimFloat.eqb price 0 = true ->
  monitor_turn server str_to_float token st
  = (Ok true,
     add_line (ErrorMonitoring ZeroDivisionError)
       (with_buy_price (Some price)
          (add_line (Monitoring name price) (add_request st)))).
Proof.
  intros (data & R & Q) B Z.
  unfold monitor_turn, try_except, monitor_body, bind, lift, fetch_data.
  rewrite R. cbn [status body Z.eqb Pos.eqb]. rewrite Q.
  unfold initial_buy, sell_or_sleep, print, sleep, modify, get, bind, ret,
    lift, PyFloat.truediv.
  cbn [buy_price add_line add_request]. rewrite B, Z. reflexivity.
Qed.

(** The first turn that reads a price other than zero enters the position,
    then applies the sell test to the very same price. *)
Lemma turn_entry (st : state) (name : json) (price : float) :
  quoted (requests st) name price ->
  buy_price st = None ->
  PrimFloat.eqb price 0 = false ->
  monitor_turn server str_to_float token st
  = if sell_condition price price
    then (Ok true,
          sold name price price
            (entered name price (add_line (Monitoring name price)
                                   (add_request st))))
    else (Ok false,
          add_sleep FETCH_INTERVAL
            (entered name price (add_line (Monitoring name price)
                                   (add_request st)))).
Proof.
  intros (data & R & Q) B Z.
  unfold monitor_turn, try_except, monitor_body, bind, lift, fetch_data.
  rewrite R. cbn [status body Z.eqb Pos.eqb]. rewrite Q.
  unfold initial_buy, sell_or_sleep, print, sleep, modify, get, bind, ret,
    lift, PyFloat.truediv.
  cbn [buy_price add_line add_request]. rewrite B, Z.
  cbn [buy_price add_line add_request with_buy_price with_purchased_amount].
  destruct (sell_condition price price); reflexivity.
Qed.

End Monitor.

(** ** The sell rule *)

(** A poll answered with the symbol [MEME] and the given price. *)
Definition quote_server (price : Z) (_ : nat) (_ : url) : response :=
  Response 200
    (JDict [("pairs",
             JList [JDict [("baseToken", JDict [("symbol", JStr "MEME")]);
                           ("priceUsd", JInt price)]])]).

Definition example_best : evaluated :=
  Evaluated (JStr "0xA1") (JStr "MEME") example_score.

(** A position of 2 units bought at 100. *)
Definition held_at_100 : state :=
  State 1 0 [Monitoring (JStr "MEME") 100; Bought (JStr "MEME") 100] 10
        (Some 100%float) 2%float 200%float.

(** C2.  While a position bought at [bought] is held, a turn whose poll
    yields [price] sells exactly when [price <= bought * 0.95] or
    [price >= bought * 1.10]; selling adds [(price - bought) * units] to the
    balance and the monitor returns; otherwise nothing is sold and the loop
    goes on.  Bought at 100: 94 sells, 109 does not, 111 does. *)
Theorem monitor_sell_rule :
  forall server str_to_float token st name price bought,
    buy_price st = Some bought ->
    quoted server str_to_float token (requests st) name price ->
    let polled := add_line (Monitoring name price) (add_request st) in
    (sell_condition bought price = true
     <-> (PrimFloat.leb price (bought * SELL_DROP_THRESHOLD) = true
          \/ PrimFloat.leb (bought * SELL_GAIN_THRESHOLD) price = true))
    /\ (sell_condition bought price = true ->
        monitor_turn server str_to_float token st
        = (Ok true, sold name bought price polled)
        /\ current_balance (sold name bought price polled)
           = (current_balance st
              + (price - bought) * purchased_amount st)%float
        /\ forall turns,
             monitor_loop server str_to_float (S turns) token st
             = (Ok Returned, sold name bought price polled))
    /\ (sell_condition bought price = false ->
        monitor_turn server str_to_float token st
        = (Ok false, add_sleep FETCH_INTERVAL polled)
        /\ forall turns,
             monitor_loop server str_to_float (S turns) token st
             = monitor_loop server str_to_float turns token
                 (add_sleep FETCH_INTERVAL polled))
    /\ sell_condition 100 94 = true
    /\ sell_condition 100 109 = false
    /\ sell_condition 100 111 = true.
Proof.
  intros server str_to_float token st name price bought B Q polled.
  pose proof (turn_holding server str_to_float token st name price bought Q B)
    as T.
  split; [ | split; [ | split; [ | repeat split]]].
  - unfold sell_condition. apply orb_true_iff.
  - intro C. rewrite C in T. repeat split.
    + exact T.
    + intro turns. cbn [monitor_loop]. unfold bind. rewrite T. reflexivity.
  - intro C. rewrite C in T. split.
    + exact T.
    + intro turns. cbn [monitor_loop]. unfold bind at 1. rewrite T.
      reflexivity.
Qed.

Lemma monitor_sell_rule_witness :
  monitor_turn (quote_server 94) no_strings example_best held_at_100
  = (Ok true,
     sold (JStr "MEME") 100 94
       (add_line (Monitoring (JStr "MEME") 94) (add_request held_at_100))).
Proof.
  assert (Q : quoted (quote_server 94) no_strings example_best
                (requests held_at_100) (JStr "MEME") 94).
  { eexists. split; reflexivity. }
  exact (proj1 (proj1 (proj2 (monitor_sell_rule (quote_server 94) no_strings
                                example_best held_at_100 (JStr "MEME") 94 100
                                eq_refl Q))
                  eq_refl)).
Defined.

(** ** The shape of a run of the monitor *)

Definition is_monitoring (l : line) : Prop :=
  match l with
  | Monitoring _ _ => True
  | _ => False
  end.

(** What a call of [monitor_token] has printed and where it stands, by how far
    it got: no turn taken; the first poll failed; the first price was zero; a
    position entered at the first price and still held; held until a poll
    failed; held until sold. *)
Inductive run_shape : progress -> list line -> state -> Prop :=
| shape_idle st :
    buy_price st = None ->
    current_balance st = INITIAL_BALANCE ->
    run_shape Looping [] st
| shape_no_quote e st :
    buy_price st = None ->
    current_balance st = INITIAL_BALANCE ->
    run_shape Returned [ErrorMonitoring e] st
| shape_zero name price st :
    PrimFloat.eqb price 0 = true ->
    buy_price st = Some price ->
    purchased_amount st = 0%float ->
    current_balance st = INITIAL_BALANCE ->
    run_shape Returned
      [Monitoring name price; ErrorMonitoring ZeroDivisionError] st
| shape_holding name price polls st :
    Forall is_monitoring polls ->
    buy_price st = Some price ->
    purchased_amount st = (INITIAL_BALANCE / price)%float ->
    current_balance st = INITIAL_BALANCE ->
    run_shape Looping (Monitoring name price :: Bought name price :: polls) st
| shape_error name price polls e st :
    Forall is_monitoring polls ->
    buy_price st = Some price ->
    purchased_amount st = (INITIAL_BALANCE / price)%float ->
    current_balance st = INITIAL_BALANCE ->
    run_shape Returned
      (Monitoring name price :: Bought name price
         :: polls ++ [ErrorMonitoring e]) st
| shape_sold name price polls name' price' st :
    Forall is_monitoring polls ->
    sell_condition price price' = true ->
    buy_price st = Some price ->
    purchased_amount st = (INITIAL_BALANCE / price)%float ->
    current_balance st
    = (INITIAL_BALANCE + (price' - price) * (INITIAL_BALANCE / price))%float ->
    run_shape Returned
      (Monitoring name price :: Bought name price
         :: polls
         ++ [Sold name' price' ((price' - price) * (INITIAL_BALANCE / price))
               (if PrimFloat.ltb
                     ((price' - price) * (INITIAL_BALANCE / price)) 0
                then "red" else "green")]) st.

Ltac conjuncts :=
  repeat match goal with |- _ /\ _ => split end;
  auto;
  try match goal with |- Forall _ _ => solve [repeat constructor; auto] end.

Section MonitorRuns.

Variable server : nat -> url -> response.
Variable str_to_float : string -> option float.
Variable token : evaluated.

(** From a held position on: polls, then nothing, an error or a sale. *)
Lemma loop_holding (turns : nat) :
  forall (st : state) (bought : float),
    buy_price st = Some bought ->
    exists r polls tail st',
      monitor_loop server str_to_float turns token st = (Ok r, st')
      /\ stdout st' = stdout st ++ polls ++ tail
      /\ Forall is_monitoring polls
      /\ buy_price st' = Some bought
      /\ purchased_amount st' = purchased_amount st
      /\ ((r = Looping /\ tail = []
           /\ current_balance st' = current_balance st)
          \/ (exists e, r = Returned /\ tail = [ErrorMonitoring e]
                        /\ current_balance st' = current_balance st)
          \/ (exists name price,
                r = Returned
                /\ sell_condition bought price = true
                /\ tail = [Sold name price
                             ((price - bought) * purchased_amount st)
                             (if PrimFloat.ltb
                                   ((price - bought) * purchased_amount st) 0
                              then "red" else "green")]
                /\ current_balance st'
                   = (current_balance st
                      + (price - bought) * purchased_amount st)%float)).
Proof.
  induction turns as [ | turns IH]; intros st bought B.
  - exists Looping, [], [], st. cbn. rewrite app_nil_r.
    conjuncts.
  - cbn [monitor_loop]. unfold bind at 1.
    destruct (poll_cases server str_to_float token (requests st))
      as [[e F] | (name & price & Q)].
    + rewrite (turn_failed _ _ _ _ _ F).
      exists Returned, [], [ErrorMonitoring e],
        (add_line (ErrorMonitoring e) (add_request st)).
      cbn. conjuncts. right. left. exists e. auto.
    + rewrite (turn_holding _ _ _ _ _ _ _ Q B).
      destruct (sell_condition bought price) eqn:C.
      * exists Returned, [Monitoring name price],
          [Sold name price ((price - bought) * purchased_amount st)
             (if PrimFloat.ltb ((price - bought) * purchased_amount st) 0
              then "red" else "green")],
          (sold name bought price
             (add_line (Monitoring name price) (add_request st))).
        cbn. rewrite <- app_assoc. cbn.
        conjuncts. right. right. exists name, price. auto.
      * destruct (IH (add_sleep FETCH_INTERVAL
                        (add_line (Monitoring name price) (add_request st)))
                    bought B)
          as (r & polls & tail & st' & E & O & P & B' & A' & K).
        exists r, (Monitoring name price :: polls), tail, st'.
        cbn in O, A', K |- *. rewrite <- app_assoc in O. cbn in O.
        conjuncts.
Qed.

(** Every call of [monitor_token] has one of the six shapes. *)
Lemma monitor_token_shape (turns : nat) (st : state) :
  exists r lines st',
    monitor_token server str_to_float turns token st = (Ok r, st')
    /\ stdout st' = stdout st ++ lines
    /\ run_shape r lines st'.
Proof.
  unfold monitor_token, init_locals, modify. unfold bind at 1.
  set (st0 := with_current_balance INITIAL_BALANCE
                (with_purchased_amount 0 (with_buy_price None st))).
  change (stdout st) with (stdout st0).
  assert (B0 : buy_price st0 = None) by reflexivity.
  assert (C0 : current_balance st0 = INITIAL_BALANCE) by reflexivity.
  assert (A0 : purchased_amount st0 = 0%float) by reflexivity.
  clearbody st0. clear st.
  destruct turns as [ | turns].
  - exists Looping, [], st0. cbn. rewrite app_nil_r.
    repeat split. now constructor.
  - cbn [monitor_loop]. unfold bind at 1.
    destruct (poll_cases server str_to_float token (requests st0))
      as [[e F] | (name & price & Q)].
    + rewrite (turn_failed _ _ _ _ _ F).
      exists Returned, [ErrorMonitoring e],
        (add_line (ErrorMonitoring e) (add_request st0)).
      repeat split. now constructor.
    + destruct (PrimFloat.eqb price 0) eqn:Z.
      * rewrite (turn_entry_zero _ _ _ _ _ _ Q B0 Z).
        eexists Returned, [Monitoring name price; _], _.
        split; [reflexivity | split].
        -- cbn. rewrite <- app_assoc. reflexivity.
        -- now constructor.
      * rewrite (turn_entry _ _ _ _ _ _ Q B0 Z).
        destruct (sell_condition price price) eqn:C.
        -- eexists Returned, _, _. split; [reflexivity | split].
           ++ cbn. rewrite C0. rewrite <- !app_assoc. cbn. reflexivity.
           ++ apply (shape_sold name price [] name price); cbn; auto;
                now rewrite C0.
        -- set (st1 := add_sleep FETCH_INTERVAL
                         (entered name price
                            (add_line (Monitoring name price)
                               (add_request st0)))).
           destruct (loop_holding turns st1 price eq_refl)
             as (r & polls & tail & st' & E & O & P & B' & A' & K).
           rewrite E. exists r. eexists. exists st'.
           split; [reflexivity | ].
           cbn in O, A', K. rewrite C0 in A', K.
           rewrite <- !app_assoc in O. cbn in O.
           split; [exact O | ].
           destruct K as [(-> & -> & K) | [(e & -> & -> & K)
                                         | (n' & p' & -> & S' & -> & K)]].
           ++ rewrite app_nil_r. now constructor.
           ++ now constructor.
           ++ now constructor.
Qed.

End MonitorRuns.

(** A price that compares equal to zero meets the sell test against itself:
    zero times the drop threshold is zero again. *)
Lemma zero_price_sells (price : float) :
  PrimFloat.eqb price 0 = true -> sell_condition price price = true.
Proof.
  intro Z. unfold sell_condition. apply orb_true_iff. left.
  rewrite eqb_spec in Z. rewrite leb_spec, mul_spec.
  change (Prim2SF 0) with (S754_zero false) in Z.
  destruct (Prim2SF price) as [s | s | | s m e]; try discriminate.
  - destruct s; reflexivity.
  - destruct s; discriminate.
  - destruct s; discriminate.
Qed.

(** ** Buying and selling *)





(** A server that answers every request with status 500. *)
Definition down_server (_ : nat) (_ : url) : response := Response 500 JNull.



(** ** A first price of zero *)

(** C10.  When the first price read compares equal to zero, the monitor
    records it as the buy price, the division for the units raises
    [ZeroDivisionError], the handler of the loop catches it and the monitor
    returns at once: nothing is sold and the balance is the initial one. *)
Theorem monitor_zero_price :
  forall server str_to_float token st name price turns,
    quoted server str_to_float token (requests st) name price ->
    PrimFloat.eqb price 0 = true ->
    exists st',
      monitor_token server str_to_float (S turns) token st
      = (Ok Returned, st')
      /\ stdout st'
         = stdout st
           ++ [Monitoring name price; ErrorMonitoring ZeroDivisionError]
      /\ buy_price st' = Some price
      /\ purchased_amount st' = 0%float
      /\ current_balance st' = INITIAL_BALANCE
      /\ requests st' = S (requests st)
      /\ slept st' = slept st.
Proof.
  intros server str_to_float token st name price turns Q Z.
  unfold monitor_token, init_locals, modify. unfold bind at 1.
  cbn [monitor_loop]. unfold bind at 1.
  rewrite (turn_entry_zero server str_to_float token
             (with_current_balance INITIAL_BALANCE
                (with_purchased_amount 0 (with_buy_price None st)))
             name price Q eq_refl Z).
  eexists. split; [reflexivity | ].
  cbn. rewrite <- app_assoc. conjuncts.
Qed.

Lemma monitor_zero_price_witness :
  exists st',
    monitor_token (quote_server 0) no_strings 1 example_best start
    = (Ok Returned, st')
    /\ stdout st'
       = stdout start
         ++ [Monitoring (JStr "MEME") 0; ErrorMonitoring ZeroDivisionError]
    /\ buy_price st' = Some 0%float
    /\ purchased_amount st' = 0%float
    /\ current_balance st' = INITIAL_BALANCE
    /\ requests st' = S (requests start)
    /\ slept st' = slept start.
Proof.
  apply (monitor_zero_price (quote_server 0) no_strings example_best start
           (JStr "MEME") 0%float 0%nat).
  - eexists. split; reflexivity.
  - reflexivity.
Defined.

(** ** A monitor that never returns *)

Section Quiet.

Variable server : nat -> url -> response.
Variable str_to_float : string -> option float.
Variable token : evaluated.

(** The polls from request [first] on are all answered, poll [n] with the
    price [prices n], and none of the prices meets the sell test against
    [bought]. *)
Variable first : nat.
Variable names : nat -> json.
Variable prices : nat -> float.
Variable bought : float.
Hypothesis answered :
  forall n, quoted server str_to_float token (first + n) (names n) (prices n).
Hypothesis quiet : forall n, sell_condition bought (prices n) = false.

Lemma loop_quiet (turns : nat) :
  forall (n : nat) (st : state),
    requests st = first + n ->
    buy_price st = Some bought ->
    exists st',
      monitor_loop server str_to_float turns token st = (Ok Looping, st')
      /\ requests st' = first + n + turns
      /\ slept st' = (slept st + FETCH_INTERVAL * Z.of_nat turns)%Z
      /\ current_balance st' = current_balance st
      /\ exists polls, stdout st' = stdout st ++ polls
                       /\ Forall is_monitoring polls.
Proof.
  induction turns as [ | turns IH]; intros n st R B.
  - exists st. cbn [monitor_loop]. unfold ret.
    conjuncts; try lia.
    exists []. now rewrite app_nil_r.
  - cbn [monitor_loop]. unfold bind at 1.
    pose proof (answered n) as Q. rewrite <- R in Q.
    rewrite (turn_holding server str_to_float token st _ _ bought Q B).
    rewrite (quiet n).
    assert (R1 : requests (add_sleep FETCH_INTERVAL
                             (add_line (Monitoring (names n) (prices n))
                                (add_request st))) = first + S n)
      by (cbn; lia).
    destruct (IH (S n) _ R1 B)
      as (st' & E & R' & S' & C' & polls & O & P).
    exists st'.
    cbn [slept current_balance stdout add_sleep add_line add_request]
      in S', C', O.
    split; [exact E | ]. conjuncts; try lia.
    exists (Monitoring (names n) (prices n) :: polls).
    rewrite <- app_assoc in O. conjuncts.
Qed.

End Quiet.

(** Why a run of the monitor returned: a sale, the price of the last poll
    meeting the sell test against the price bought at; a poll that failed, at
    the fetch or at the reading of the symbol and the price; or a first price
    of zero, for which the division of the buy raises. *)
Inductive exit_cause (server : nat -> url -> response)
    (str_to_float : string -> option float) (token : evaluated)
    (st st' : state) : Prop :=
| cause_sale bought name price profit color before :
    quoted server str_to_float token (requests st' - 1) name price ->
    buy_price st' = Some bought ->
    sell_condition bought price = true ->
    stdout st' = stdout st ++ before ++ [Sold name price profit color] ->
    exit_cause server str_to_float token st st'
| cause_failed_poll e before :
    failed server str_to_float token (requests st' - 1) e ->
    stdout st' = stdout st ++ before ++ [ErrorMonitoring e] ->
    exit_cause server str_to_float token st st'
| cause_zero_price name price :
    quoted server str_to_float token (requests st) name price ->
    PrimFloat.eqb price 0 = true ->
    stdout st'
    = stdout st ++ [Monitoring name price; ErrorMonitoring ZeroDivisionError] ->
    exit_cause server str_to_float token st st'.

Section Exit.

Variable server : nat -> url -> response.
Variable str_to_float : string -> option float.
Variable token : evaluated.

(** From a held position the loop returns by a sale or by a failed poll. *)
Lemma loop_exit_holding (turns : nat) :
  forall (st st' : state) (bought : float),
    buy_price st = Some bought ->
    monitor_loop server str_to_float turns token st = (Ok Returned, st') ->
    (exists name price profit color before,
        quoted server str_to_float token (requests st' - 1) name price
        /\ sell_condition bought price = true
        /\ buy_price st' = Some bought
        /\ stdout st' = stdout st ++ before ++ [Sold name price profit color])
    \/ (exists e before,
           failed server str_to_float token (requests st' - 1) e
           /\ stdout st' = stdout st ++ before ++ [ErrorMonitoring e]).
Proof.
  induction turns as [ | turns IH]; intros st st' bought B E.
  - discriminate E.
  - cbn [monitor_loop] in E. unfold bind at 1 in E.
    destruct (poll_cases server str_to_float token (requests st))
      as [[e F] | (name & price & Q)].
    + rewrite (turn_failed _ _ _ _ _ F) in E. injection E as <-.
      right. exists e, []. split; [ | reflexivity].
      cbn [requests add_line add_request].
      now rewrite Nat.sub_succ, Nat.sub_0_r.
    + rewrite (turn_holding _ _ _ _ _ _ _ Q B) in E.
      destruct (sell_condition bought price) eqn:C.
      * injection E as <-. left.
        eexists name, price, _, _, [Monitoring name price].
        split; [ | split; [exact C | split; [exact B | ]]].
        -- cbn [requests sold add_line add_request with_current_balance].
           now rewrite Nat.sub_succ, Nat.sub_0_r.
        -- cbn. rewrite <- !app_assoc. reflexivity.
      * destruct (IH (add_sleep FETCH_INTERVAL
                          (add_line (Monitoring name price) (add_request st)))
                    st' bought B E)
          as [(n & p & pr & c & before & Q' & C' & B' & O)
             | (e & before & F' & O)];
          cbn [stdout add_sleep add_line add_request] in O;
          rewrite <- app_assoc in O.
        -- left. exists n, p, pr, c, (Monitoring name price :: before).
           conjuncts.
        -- right. exists e, (Monitoring name price :: before). conjuncts.
Qed.

Lemma monitor_exit (turns : nat) (st st' : state) :
  monitor_token server str_to_float turns token st = (Ok Returned, st') ->
  exit_cause server str_to_float token st st'.
Proof.
  unfold monitor_token, init_locals, modify. unfold bind at 1.
  set (st0 := with_current_balance INITIAL_BALANCE
                (with_purchased_amount 0 (with_buy_price None st))).
  intro E. destruct turns as [ | turns]; [discriminate E | ].
  cbn [monitor_loop] in E. unfold bind at 1 in E.
  destruct (poll_cases server str_to_float token (requests st))
    as [[e F] | (name & price & Q)].
  - rewrite (turn_failed server str_to_float token st0 e F) in E.
    injection E as <-.
    apply (cause_failed_poll _ _ _ _ _ e []); [ | reflexivity].
    cbn [requests add_line add_request st0 with_current_balance
           with_purchased_amount with_buy_price].
    now rewrite Nat.sub_succ, Nat.sub_0_r.
  - destruct (PrimFloat.eqb price 0) eqn:Z.
    + rewrite (turn_entry_zero server str_to_float token st0 name price
                 Q eq_refl Z) in E.
      injection E as <-.
      apply (cause_zero_price _ _ _ _ _ name price Q Z).
      cbn. rewrite <- app_assoc. reflexivity.
    + rewrite (turn_entry server str_to_float token st0 name price
                 Q eq_refl Z) in E.
      destruct (sell_condition price price) eqn:C.
      * injection E as <-.
        eapply (cause_sale _ _ _ _ _ price name price _ _
                  [Monitoring name price; Bought name price]).
        -- cbn. now rewrite Nat.sub_0_r.
        -- reflexivity.
        -- exact C.
        -- cbn. rewrite <- !app_assoc. reflexivity.
      * destruct (loop_exit_holding turns
                    (add_sleep FETCH_INTERVAL
                       (entered name price
                          (add_line (Monitoring name price)
                             (add_request st0))))
                    st' price eq_refl E)
          as [(n & p & pr & c & before & Q' & C' & B' & O)
             | (e & before & F' & O)];
          cbn [stdout add_sleep entered add_line add_request
                 with_purchased_amount with_buy_price with_current_balance
                 st0] in O;
          rewrite <- !app_assoc in O; cbn [app] in O.
        -- apply (cause_sale _ _ _ _ _ price n p pr c
                    (Monitoring name price :: Bought name price :: before));
             auto.
        -- apply (cause_failed_poll _ _ _ _ _ e
                    (Monitoring name price :: Bought name price :: before));
             auto.
Qed.

End Exit.

(** C9, as stated, fails: when the first price read is zero the monitor
    returns although the poll was fetched and read, and nothing was sold. *)
Lemma monitor_returns_on_zero_price :
  ~ (forall server str_to_float token turns st st',
        monitor_token server str_to_float turns token st = (Ok Returned, st') ->
        (exists name price profit color before,
            stdout st' = stdout st ++ before ++ [Sold name price profit color])
        \/ (exists e before,
               failed server str_to_float token (requests st' - 1) e
               /\ stdout st' = stdout st ++ before ++ [ErrorMonitoring e])).
Proof.
  intro H.
  destruct (H (quote_server 0) no_strings example_best 1 start
              (add_line (ErrorMonitoring ZeroDivisionError)
                 (with_buy_price (Some 0%float)
                    (add_line (Monitoring (JStr "MEME") 0)
                       (add_request start)))) eq_refl)
    as [(name & price & profit & color & before & O)
       | (e & before & [[C _] | [_ Q]] & _)].
  - change ([Monitoring (JStr "MEME") 0] ++ [ErrorMonitoring ZeroDivisionError]
            = before ++ [Sold name price profit color]) in O.
    apply app_inj_tail in O. destruct O as [_ O]. discriminate O.
  - discriminate C.
  - discriminate Q.
Qed.

(** C9, amended.  The monitor never raises, and it returns only when a sale
    is made, when a poll fails at the fetch or at the reading of the symbol
    and the price, or when the first price read is zero.  When every poll is
    answered with a price and no price meets the sell test against the first
    one, the loop is still running after any number of turns, however long
    it has slept: [MONITOR_DURATION] is not consulted. *)
Theorem monitor_stops_only_on_sale_or_error :
  (forall server str_to_float token turns st,
   exists r st',
     monitor_token server str_to_float turns token st = (Ok r, st')
     /\ (r = Returned -> exit_cause server str_to_float token st st'))
  /\ (forall server str_to_float token st names prices,
        (forall n, quoted server str_to_float token (requests st + n)
                     (names n) (prices n)) ->
        (forall n, sell_condition (prices 0%nat) (prices n) = false) ->
        forall turns,
        exists st',
          monitor_token server str_to_float turns token st = (Ok Looping, st')
          /\ requests st' = requests st + turns
          /\ slept st' = (slept st + FETCH_INTERVAL * Z.of_nat turns)%Z
          /\ ((MONITOR_DURATION < FETCH_INTERVAL * Z.of_nat turns)%Z ->
              (MONITOR_DURATION < slept st' - slept st)%Z)).
Proof.
  split.
  - intros server str_to_float token turns st.
    destruct (monitor_token_shape server str_to_float token turns st)
      as (r & lines & st' & E & _).
    exists r, st'. split; [exact E | ]. intros ->.
    exact (monitor_exit server str_to_float token turns st st' E).
  - intros server str_to_float token st names prices answered quiet turns.
    unfold monitor_token, init_locals, modify. unfold bind at 1.
    set (st0 := with_current_balance INITIAL_BALANCE
                  (with_purchased_amount 0 (with_buy_price None st))).
    destruct turns as [ | turns].
    + exists st0. cbn [monitor_loop]. unfold ret.
      split; [reflexivity | ]. cbn. conjuncts; lia.
    + cbn [monitor_loop]. unfold bind at 1.
      pose proof (answered 0%nat) as Q. rewrite Nat.add_0_r in Q.
      assert (Z : PrimFloat.eqb (prices 0%nat) 0 = false).
      { destruct (PrimFloat.eqb (prices 0%nat) 0) eqn:Z; [ | reflexivity].
        apply zero_price_sells in Z. rewrite quiet in Z. discriminate. }
      rewrite (turn_entry server str_to_float token st0 _ _ Q eq_refl Z).
      rewrite quiet.
      set (st1 := add_sleep FETCH_INTERVAL
                    (entered (names 0%nat) (prices 0%nat)
                       (add_line (Monitoring (names 0%nat) (prices 0%nat))
                          (add_request st0)))).
      destruct (loop_quiet server str_to_float token (requests st)
                  (fun n => names n) prices (prices 0%nat) answered quiet
                  turns 1%nat st1)
        as (st' & E & R' & S' & _).
      * cbn. lia.
      * reflexivity.
      * exists st'. split; [exact E | ].
        cbn [slept add_sleep entered add_line add_request
               with_purchased_amount with_buy_price with_current_balance
               st1 st0] in S'.
        unfold st1, st0 in S'. cbn [slept add_sleep entered add_line
          add_request with_purchased_amount with_buy_price
          with_current_balance] in S'.
        conjuncts; try lia.
Qed.

Lemma monitor_stops_only_on_sale_or_error_witness :
  exists st',
    monitor_token (quote_server 100) no_strings 7 example_best start
    = (Ok Looping, st')
    /\ requests st' = requests start + 7
    /\ slept st' = (slept start + FETCH_INTERVAL * Z.of_nat 7)%Z
    /\ ((MONITOR_DURATION < FETCH_INTERVAL * Z.of_nat 7)%Z ->
        (MONITOR_DURATION < slept st' - slept start)%Z).
Proof.
  apply (proj2 monitor_stops_only_on_sale_or_error (quote_server 100)
           no_strings example_best start (fun _ => JStr "MEME")
           (fun _ => 100%float)).
  - intro n. eexists. split; reflexivity.
  - intro n. reflexivity.
Defined.

(** * The selector *)

Section Selector.

Import FloatFacts.

(** No score exceeds [m]'s. *)
Definition unbeaten (m : evaluated) (tokens : list evaluated) : Prop :=
  Forall (fun t => PrimFloat.ltb (score m) (score t) = false) tokens.

(** No token of the list has a score equal to [m]'s. *)
Definition unmatched (m : evaluated) (tokens : list evaluated) : Prop :=
  Forall (fun t => PrimFloat.eqb (score t) (score m) = false) tokens.

Lemma max_from_split (rest : list evaluated) :
  forall best : evaluated,
  exists before after,
    best :: rest = before ++ max_from best rest :: after
    /\ unbeaten (max_from best rest) (best :: rest)
    /\ unmatched (max_from best rest) before
    /\ (before = []
        \/ PrimFloat.ltb (score best) (score (max_from best rest)) = true).
Proof.
  unfold unbeaten, unmatched.
  induction rest as [ | x rest IH]; intro best.
  - exists [], []. cbn. conjuncts. constructor; [ | constructor].
    apply ltb_irrefl.
  - cbn [max_from].
    destruct (PrimFloat.ltb (score best) (score x)) eqn:L.
    + destruct (IH x) as (before & after & E & U & M & K).
      remember (max_from x rest) as m eqn:Hm. clear Hm.
      assert (Lm : PrimFloat.ltb (score best) (score m) = true).
      { destruct K as [-> | K].
        - cbn in E. injection E as E _. now rewrite <- E.
        - eapply ltb_trans; eassumption. }
      exists (best :: before), after. conjuncts.
      * cbn. now rewrite E.
      * constructor; [ | exact U]. order.
      * constructor; [ | exact M]. order.
    + destruct (IH best) as (before & after & E & U & M & K).
      remember (max_from best rest) as m eqn:Hm. clear Hm.
      pose proof (Forall_inv U) as Ub. pose proof (Forall_inv_tail U) as Ur.
      cbn beta in Ub.
      destruct before as [ | b before].
      * cbn in E. injection E as E1 E2.
        exists [], (x :: after). conjuncts.
        -- cbn. now rewrite <- E1, <- E2.
        -- constructor; [exact Ub | ]. constructor; [ | exact Ur].
           rewrite <- E1. exact L.
      * cbn in E. injection E as E1 E2. subst b.
        destruct K as [K | K]; [discriminate | ].
        pose proof (Forall_inv M) as Mb.
        pose proof (Forall_inv_tail M) as Mr. cbn beta in Mb.
        exists (best :: x :: before), after. conjuncts.
        -- cbn. now rewrite E2.
        -- constructor; [exact Ub | ]. constructor; [ | exact Ur]. order.
        -- constructor; [exact Mb | ]. constructor; [ | exact Mr]. order.
Qed.

End Selector.

(** C5.  On a sequence that is not empty the selector returns one of its
    elements; no element has a greater score; and no element before it has an
    equal score, so that among equal best scores the first one met is
    returned.  Among the scores 0.1, 0.5 and 0.3 the entry with 0.5 is
    returned. *)
Theorem max_by_score_first_maximum :
  (forall (first : evaluated) (others : list evaluated),
   exists best before after,
     max_by_score (first :: others) = Ok best
     /\ first :: others = before ++ best :: after
     /\ Forall (fun t => PrimFloat.ltb (score best) (score t) = false)
          (first :: others)
     /\ Forall (fun t => PrimFloat.eqb (score t) (score best) = false) before)
  /\ (forall a1 n1 a2 n2 a3 n3,
        max_by_score [Evaluated a1 n1 0x1.999999999999ap-4;
                      Evaluated a2 n2 0.5;
                      Evaluated a3 n3 0x1.3333333333333p-2]
        = Ok (Evaluated a2 n2 0.5)).
Proof.
  split.
  - intros first others.
    destruct (max_from_split others first) as (before & after & E & U & M & _).
    exists (max_from first others), before, after. now conjuncts.
  - intros. reflexivity.
Qed.

(** Without NaN among the scores, the score returned is above or equal to
    every score of the sequence. *)
Lemma max_by_score_upper_bound (first : evaluated) (others : list evaluated) :
  Forall (fun t => PyFloat.is_nan (score t) = false) (first :: others) ->
  exists best,
    max_by_score (first :: others) = Ok best
    /\ In best (first :: others)
    /\ Forall (fun t => PrimFloat.leb (score t) (score best) = true)
         (first :: others).
Proof.
  intro N.
  destruct (max_from_split others first) as (before & after & E & U & M & _).
  exists (max_from first others). split; [reflexivity | ].
  assert (I : In (max_from first others) (first :: others)).
  { rewrite E. apply in_or_app. right. now left. }
  split; [exact I | ]. unfold unbeaten in U.
  rewrite Forall_forall in N, U |- *. intros t T.
  apply FloatFacts.ltb_total; auto.
Qed.

(** * The sampler *)

(** What the library promises of [random.sample]: asked for [k] items of a
    population of at least [k], it returns the items found at [k] distinct
    positions, and raises nothing. *)
Definition samples_without_replacement (sample : sampler) : Prop :=
  forall g population k,
    k <= List.length population ->
    exists positions made,
      sample g population k
      = (Ok (map (fun i => nth i population JNull) positions), made)
      /\ List.length positions = k
      /\ NoDup positions
      /\ Forall (fun i => i < List.length population) positions.

Lemma nth_seq_self (l : list json) :
  map (fun i => nth i l JNull) (seq 0 (List.length l)) = l.
Proof.
  induction l as [ | x l IH]; [reflexivity | ].
  cbn [List.length seq map nth]. f_equal.
  rewrite <- seq_shift, map_map. exact IH.
Qed.

Lemma nth_seq_firstn (k : nat) :
  forall l : list json,
    k <= List.length l ->
    map (fun i => nth i l JNull) (seq 0 k) = firstn k l.
Proof.
  induction k as [ | k IH]; intros l L; [reflexivity | ].
  destruct l as [ | x l]; [cbn in L; lia | ].
  cbn [seq map nth firstn]. f_equal.
  rewrite <- seq_shift, map_map. apply IH. cbn in L. lia.
Qed.

(** One outcome of [random.sample], used in the examples: the generator
    draws so that the sample comes out as the first [k] items, in [k] draws;
    [ValueError] when [k] exceeds the population. *)
Definition first_items : sampler :=
  fun _ population k =>
    if Nat.ltb (List.length population) k then (Raise ValueError, 0)
    else (Ok (firstn k population), k).

Lemma first_items_without_replacement :
  samples_without_replacement first_items.
Proof.
  intros g population k L. exists (seq 0 k), k. unfold first_items.
  destruct (Nat.ltb_spec (List.length population) k) as [G | _]; [lia | ].
  rewrite (nth_seq_firstn k population L). conjuncts.
  - apply length_seq.
  - apply seq_NoDup.
  - apply Forall_forall. intros i I. apply in_seq in I. lia.
Qed.

Section Sampler.

Variable server : nat -> url -> response.
Variable sample : sampler.

(** A body that is a list is handed, with [min(len, 15)], to the library,
    whose answer is returned as it is. *)
Lemma get_random_tokens_list (st : state) (l : list json) :
  server (requests st) TOKEN_LIST_URL = Response 200 (JList l) ->
  get_random_tokens server sample st
  = random_sample sample l (Nat.min (List.length l) 15) (add_request st).
Proof.
  intro R. unfold get_random_tokens, bind, fetch_data. rewrite R.
  reflexivity.
Qed.

Lemma get_random_tokens_not_list (st : state) (data : json) :
  server (requests st) TOKEN_LIST_URL = Response 200 data ->
  (forall l, data <> JList l) ->
  get_random_tokens server sample st
  = (Raise FormatException, add_request st).
Proof.
  intros R NL. unfold get_random_tokens, bind, fetch_data. rewrite R.
  cbn [status body Z.eqb Pos.eqb].
  destruct data; try reflexivity. now contradiction (NL l).
Qed.

(** With a library that keeps its promise, a list is sampled at
    [min(len, 15)] distinct positions. *)
Lemma get_random_tokens_positions (st : state) (l : list json) :
  samples_without_replacement sample ->
  server (requests st) TOKEN_LIST_URL = Response 200 (JList l) ->
  exists positions st',
    get_random_tokens server sample st
    = (Ok (map (fun i => nth i l JNull) positions), st')
    /\ List.length positions = Nat.min (List.length l) 15
    /\ NoDup positions
    /\ Forall (fun i => i < List.length l) positions
    /\ requests st' = S (requests st)
    /\ stdout st' = stdout st
    /\ slept st' = slept st.
Proof.
  intros W R. rewrite (get_random_tokens_list st l R).
  unfold random_sample.
  destruct (W (draws (add_request st)) l (Nat.min (List.length l) 15)
              (Nat.le_min_l _ _)) as (positions & made & E & P).
  rewrite E. exists positions. eexists. split; [reflexivity | ].
  cbn. destruct P as (P1 & P2 & P3). conjuncts.
Qed.

End Sampler.

(** A listing of two tokens, and a listing that is an object. *)
Definition token_a : json := JDict [("tokenAddress", JStr "0xA1")].
Definition token_b : json := JDict [("tokenAddress", JStr "0xB2")].

Definition listing_server (listing : json) (_ : nat) (u : url) : response :=
  match u with
  | TOKEN_LIST_URL => Response 200 listing
  | TOKEN_DETAILS_URL _ => Response 200 (JDict [])
  end.



(** * The run *)

(** C7.  When no token is evaluated successfully the run prints its message
    and returns: nothing is raised, no token is selected, and no request is
    sent after the evaluations. *)
Theorem main_no_valid_tokens :
  forall server sample str_to_float turns st tokens st1 st2,
    get_random_tokens server sample st = (Ok tokens, st1) ->
    evaluate_tokens server str_to_float tokens st1 = (Ok [], st2) ->
    main server sample str_to_float turns st
    = (Ok Returned, add_line NoValidTokens st2).
Proof.
  intros server sample str_to_float turns st tokens st1 st2 G E.
  unfold main. unfold bind at 1. rewrite G.
  unfold bind at 1. rewrite E. reflexivity.
Qed.

Lemma main_no_valid_tokens_witness :
  main (listing_server (JList [token_a])) first_items no_strings 5 start
  = (Ok Returned,
     add_line NoValidTokens
       (add_line (NoPairsData (JStr "0xA1"))
          (add_request (add_draws 1 (add_request start))))).
Proof.
  apply (main_no_valid_tokens (listing_server (JList [token_a])) first_items
           no_strings 5 start [token_a] (add_draws 1 (add_request start)));
    reflexivity.
Defined.

(** ** Errors during the evaluation of a token *)

(** The listing holds two tokens; every request for details is answered with
    status 500. *)
Definition failing_server (_ : nat) (u : url) : response :=
  match u with
  | TOKEN_LIST_URL => Response 200 (JList [token_a; token_b])
  | TOKEN_DETAILS_URL _ => Response 500 JNull
  end.

(** C3, as stated, fails: the exception of a failed fetch is not of a class
    the evaluator catches.  It leaves [evaluate_token] and [main]: the run
    stops after two requests, with nothing printed and the second token never
    evaluated.  Likewise for an entry of the listing that is not a dictionary:
    the handler itself raises when it looks up the address to print. *)
Lemma fetch_failure_leaves_evaluate_token :
  evaluate_token failing_server no_strings token_a start
  = (Raise (PlainException 500), add_request start)
  /\ main failing_server first_items no_strings 5 start
     = (Raise (PlainException 500),
        add_request (add_draws 2 (add_request start)))
  /\ evaluate_token failing_server no_strings (JStr "0xA1") start
     = (Raise AttributeError, start).
Proof. repeat split; reflexivity. Qed.

(** What the handler of [evaluate_token] prints for [token]. *)
Definition shown_address (items : list (string * json)) : json :=
  match assoc "tokenAddress" items with
  | Some v => v
  | None => JNull
  end.

(** C3, amended.  For a token that is a dictionary, a [KeyError],
    [ZeroDivisionError], [TypeError] or [ValueError] raised while it is
    evaluated is caught in [evaluate_token] and printed; the token yields no
    result and the loop of the run goes on with the tokens that remain. *)
Theorem evaluate_token_catches :
  forall server str_to_float items e st st' rest,
    evaluate_token_body server str_to_float (JDict items) st = (Raise e, st') ->
    In e [KeyError; ZeroDivisionError; TypeError; ValueError] ->
    evaluate_token server str_to_float (JDict items) st
    = (Ok None, add_line (ErrorEvaluating (shown_address items) e) st')
    /\ evaluate_tokens server str_to_float (JDict items :: rest) st
       = evaluate_tokens server str_to_float rest
           (add_line (ErrorEvaluating (shown_address items) e) st').
Proof.
  intros server str_to_float items e st st' rest R C.
  assert (E : evaluate_token server str_to_float (JDict items) st
              = (Ok None,
                 add_line (ErrorEvaluating (shown_address items) e) st')).
  { unfold evaluate_token, try_except. rewrite R.
    assert (K : evaluate_caught e = true).
    { destruct C as [<- | [<- | [<- | [<- | []]]]]; reflexivity. }
    rewrite K. unfold bind, lift, dict_get, shown_address.
    destruct (assoc "tokenAddress" items); reflexivity. }
  split; [exact E | ].
  cbn [evaluate_tokens]. unfold bind at 1. rewrite E.
  unfold bind, ret.
  destruct (evaluate_tokens server str_to_float rest _) as [[l | x] s];
    reflexivity.
Qed.

(** A pair without [baseToken]: the evaluation raises [KeyError]. *)
Definition nameless_server (_ : nat) (_ : url) : response :=
  Response 200 (JDict [("pairs", JList [JDict [("fdv", JInt 2000)]])]).

Lemma evaluate_token_catches_witness :
  evaluate_token nameless_server no_strings token_a start
  = (Ok None,
     add_line (ErrorEvaluating (JStr "0xA1") KeyError)
       (add_line (McapFdv 2000 2000) (add_request start)))
  /\ evaluate_tokens nameless_server no_strings [token_a; token_b] start
     = evaluate_tokens nameless_server no_strings [token_b]
         (add_line (ErrorEvaluating (JStr "0xA1") KeyError)
            (add_line (McapFdv 2000 2000) (add_request start))).
Proof.
  apply (evaluate_token_catches nameless_server no_strings
           [("tokenAddress", JStr "0xA1")] KeyError start
           (add_line (McapFdv 2000 2000) (add_request start)) [token_b]).
  - reflexivity.
  - cbn. auto.
Defined.

(** Errors of the classes caught, each ending in no result: a price change
    that is not a number, a liquidity that is [null] under [float]. *)
Example evaluate_token_value_error :
  fst (evaluate_token
         (fun _ _ =>
            Response 200
              (JDict [("pairs",
                       JList [JDict [("priceChange",
                                      JDict [("h24", JStr "n/a")])]])]))
         no_strings token_a start)
  = Ok None.
Proof. reflexivity. Qed.

Example evaluate_token_type_error :
  fst (evaluate_token
         (fun _ _ =>
            Response 200
              (JDict [("pairs",
                       JList [JDict [("liquidity",
                                      JDict [("usd", JNull)])]])]))
         no_strings token_a start)
  = Ok None.
Proof. reflexivity. Qed.

(** ** A whole run *)

Definition pair_of (symbol : string) (liquidity_usd price : Z) : json :=
  JDict [("baseToken", JDict [("symbol", JStr symbol)]);
         ("liquidity", JDict [("usd", JInt liquidity_usd)]);
         ("fdv", JInt 2000);
         ("priceUsd", JInt price)].

(** Two tokens listed; the second one scores higher, is bought at 100, seen
    at 100 again and sold at 111. *)
Definition market (n : nat) (u : url) : response :=
  match u with
  | TOKEN_LIST_URL => Response 200 (JList [token_a; token_b])
  | TOKEN_DETAILS_URL (JStr "0xA1") =>
      Response 200 (JDict [("pairs", JList [pair_of "AAA" 1000 5])])
  | TOKEN_DETAILS_URL _ =>
      Response 200
        (JDict [("pairs",
                 JList [pair_of "BBB" 5000
                          (if Nat.leb n 4 then 100 else 111)])])
  end.

Example whole_run :
  main market first_items no_strings 10 start
  = (Ok Returned,
     State 6 2
       [McapFdv 2000 2000; McapFdv 2000 2000; EvaluatedTokensHeader;
        EvaluatedTokenLine (JStr "0xA1") (JStr "AAA") 0x1.999999999999ap-3;
        EvaluatedTokenLine (JStr "0xB2") (JStr "BBB") 1;
        BestTokenSelected (JStr "BBB") (JStr "0xB2");
        Monitoring (JStr "BBB") 100; Bought (JStr "BBB") 100;
        Monitoring (JStr "BBB") 100; Monitoring (JStr "BBB") 111;
        Sold (JStr "BBB") 111 22 "green"]
       20 (Some 100%float) 2 222).
Proof. vm_compute. reflexivity. Qed.

(** * Beyond the claims: the exits of the evaluator *)

(** [r] raises nothing outside [allowed]. *)
Definition raises_in {A} (allowed : list exn) (r : result A) : Prop :=
  forall e, r = Raise e -> In e allowed.

Lemma raises_in_weaken {A} (l l' : list exn) (r : result A) :
  raises_in l r -> incl l l' -> raises_in l' r.
Proof. intros H I e E. apply I, (H e E). Qed.

Lemma raises_in_bind {A B} (l : list exn) (r : result A)
    (k : A -> result B) :
  raises_in l r ->
  (forall a, r = Ok a -> raises_in l (k a)) ->
  raises_in l (rbind r k).
Proof.
  intros H K e E. destruct r as [a | e']; cbn in E.
  - exact (K a eq_refl e E).
  - apply H. injection E as <-. reflexivity.
Qed.

Lemma raises_in_ok {A} (l : list exn) (a : A) : raises_in l (Ok a).
Proof. intros e E. discriminate E. Qed.

Lemma getitem_raises (v : json) (k : string) :
  raises_in [KeyError; TypeError] (getitem v k).
Proof.
  intros e E. destruct v; cbn in E; try (injection E as <-; cbn; tauto).
  destruct (assoc k items); [discriminate | ].
  injection E as <-. cbn. tauto.
Qed.

Lemma getitem_dict (v : json) (k : string) (x : json) :
  getitem v k = Ok x -> exists items, v = JDict items /\ assoc k items = Some x.
Proof.
  destruct v; cbn; try discriminate.
  destruct (assoc k items) as [y | ] eqn:E; [ | discriminate].
  intros [= <-]. now exists items.
Qed.

Lemma contains_raises (v : json) (k : string) :
  raises_in [TypeError] (contains k v).
Proof.
  intros e E. destruct v; cbn in E; try discriminate;
    injection E as <-; cbn; tauto.
Qed.

Lemma dict_get_raises (v : json) (k : string) (d : json) :
  raises_in [AttributeError] (dict_get v k d).
Proof.
  intros e E. destruct v; cbn in E; try (injection E as <-; cbn; tauto).
  destruct (assoc k items); discriminate.
Qed.

(** Indexing something that is true never raises [IndexError]: an empty list
    and an empty string are false. *)
Lemma getitem0_truthy_raises (v : json) :
  truthy v = true -> raises_in [KeyError; TypeError] (getitem0 v).
Proof.
  intros T e E. destruct v as [ | b | z | f | s | l | items]; cbn in E, T;
    try (injection E as <-; cbn; tauto).
  - destruct s; [discriminate T | discriminate E].
  - destruct l; [discriminate T | discriminate E].
Qed.

Lemma py_float_raises (str_to_float : string -> option float) (v : json) :
  raises_in [TypeError; ValueError; OverflowError] (py_float str_to_float v).
Proof.
  intros e E. destruct v; cbn in E; try discriminate;
    try (injection E as <-; cbn; tauto).
  - unfold PyFloat.of_int in E.
    destruct (binary_normalize prec emax z 0 false); try discriminate.
    injection E as <-. cbn. tauto.
  - destruct (str_to_float s); [discriminate | ].
    injection E as <-. cbn. tauto.
Qed.

Definition extract_errors : list exn :=
  [AttributeError; TypeError; ValueError; OverflowError].

(** The extraction raises [AttributeError] (a [.get] on something that is not
    a dictionary) or what [float] raises; never [ZeroDivisionError]. *)
Lemma extract_raises (str_to_float : string -> option float) (pair : json) :
  raises_in extract_errors (extract str_to_float pair).
Proof.
  unfold extract.
  repeat (apply raises_in_bind;
          [ first
              [ apply (raises_in_weaken [AttributeError]);
                [apply dict_get_raises | unfold extract_errors; intros x X;
                                         cbn in *; tauto]
              | apply (raises_in_weaken [TypeError; ValueError; OverflowError]);
                [apply py_float_raises | unfold extract_errors; intros x X;
                                         cbn in *; tauto]
              | rewrite FloatFacts.truediv_max_one; apply raises_in_ok ]
          | intros ? _ ]).
  apply raises_in_ok.
Qed.

(** The ways out of the [try] of [evaluate_token], in the order of the source:
    the entry has no usable ['tokenAddress']; the fetch failed; reading the
    pairs or the fields of the first pair raised; there are no pairs; the
    symbol could not be read; a result. *)
Inductive body_exit (token : json) (st : state)
  : result (option evaluated) * state -> Prop :=
| exit_address e :
    In e [KeyError; TypeError] ->
    body_exit token st (Raise e, st)
| exit_fetch items code :
    token = JDict items ->
    body_exit token st (Raise (PlainException code), add_request st)
| exit_reading items e :
    token = JDict items ->
    In e [KeyError; TypeError; ValueError; AttributeError; OverflowError] ->
    body_exit token st (Raise e, add_request st)
| exit_no_pairs items :
    token = JDict items ->
    body_exit token st
      (Ok None, add_line (NoPairsData (shown_address items)) (add_request st))
| exit_name items e m f :
    token = JDict items ->
    In e [KeyError; TypeError] ->
    body_exit token st (Raise e, add_line (McapFdv m f) (add_request st))
| exit_result items address name sc m f :
    token = JDict items ->
    assoc "tokenAddress" items = Some address ->
    body_exit token st
      (Ok (Some (Evaluated address name sc)),
       add_line (McapFdv m f) (add_request st)).

Section Exits.

Variable server : nat -> url -> response.
Variable str_to_float : string -> option float.

Lemma body_exits (token : json) (st : state) :
  body_exit token st (evaluate_token_body server str_to_float token st).
Proof.
  unfold evaluate_token_body, bind, lift.
  destruct (getitem token "tokenAddress") as [address | e] eqn:A.
  2:{ apply exit_address. exact (getitem_raises _ _ _ A). }
  destruct (getitem_dict _ _ _ A) as (items & -> & I).
  unfold fetch_data.
  set (r := server (requests st) (TOKEN_DETAILS_URL address)).
  destruct (Z.eqb (status r) 200); [ | now apply (exit_fetch _ _ items)].
  assert (NP : body_exit (JDict items) st
                 (Ok None,
                  add_line (NoPairsData address) (add_request st))).
  { replace address with (shown_address items)
      by (unfold shown_address; now rewrite I).
    now apply exit_no_pairs. }
  destruct (contains "pairs" (body r)) as [has | e] eqn:C.
  2:{ apply (exit_reading _ _ items); [reflexivity | ].
      pose proof (contains_raises _ _ _ C) as K. cbn in K |- *. tauto. }
  destruct has; cbn [negb].
  2:{ unfold ret, dict_get. rewrite I. exact NP. }
  destruct (getitem (body r) "pairs") as [pairs | e] eqn:P.
  2:{ apply (exit_reading _ _ items); [reflexivity | ].
      pose proof (getitem_raises _ _ _ P) as K. cbn in K |- *. tauto. }
  unfold ret. destruct (truthy pairs) eqn:T; cbn [negb].
  2:{ unfold dict_get. rewrite I. exact NP. }
  destruct (getitem0 pairs) as [pair | e] eqn:G.
  2:{ apply (exit_reading _ _ items); [reflexivity | ].
      pose proof (getitem0_truthy_raises _ T _ G) as K. cbn in K |- *. tauto. }
  destruct (extract str_to_float pair) as [s | e] eqn:X.
  2:{ apply (exit_reading _ _ items); [reflexivity | ].
      pose proof (extract_raises _ _ _ X) as K.
      unfold extract_errors in K. cbn in K |- *. tauto. }
  unfold print, modify. rewrite compute_score_ok.
  destruct (getitem pair "baseToken") as [base | e] eqn:B.
  2:{ apply (exit_name _ _ items); [reflexivity | ].
      exact (getitem_raises _ _ _ B). }
  destruct (getitem base "symbol") as [name | e] eqn:N.
  2:{ apply (exit_name _ _ items); [reflexivity | ].
      exact (getitem_raises _ _ _ N). }
  now apply (exit_result _ _ items).
Qed.

End Exits.

(** The exceptions that are not of the classes [evaluate_token] catches and
    can leave it. *)
Definition escapes (e : exn) : Prop :=
  (exists code, e = PlainException code)
  \/ e = AttributeError \/ e = OverflowError.

(** The ways out of [evaluate_token]: a result after the line [MCAP .. FDV ..];
    no result after the line for missing pairs; no result after the line for
    an error caught, printed where the [try] stopped; an exception, with
    nothing printed. *)
Inductive token_exit (st : state)
  : result (option evaluated) * state -> Prop :=
| out_result ev m f :
    token_exit st (Ok (Some ev), add_line (McapFdv m f) (add_request st))
| out_no_pairs shown :
    token_exit st (Ok None, add_line (NoPairsData shown) (add_request st))
| out_caught shown e st1 :
    evaluate_caught e = true ->
    st1 = st \/ st1 = add_request st
    \/ (exists m f, st1 = add_line (McapFdv m f) (add_request st)) ->
    token_exit st (Ok None, add_line (ErrorEvaluating shown e) st1)
| out_escaped e st1 :
    escapes e ->
    st1 = st \/ st1 = add_request st ->
    token_exit st (Raise e, st1).

Lemma evaluate_token_exits (server : nat -> url -> response)
    (str_to_float : string -> option float) (token : json) (st : state) :
  token_exit st (evaluate_token server str_to_float token st).
Proof.
  unfold evaluate_token, try_except.
  pose proof (body_exits server str_to_float token st) as B.
  destruct (evaluate_token_body server str_to_float token st) as [r st1].
  inversion B as [e I | items code T | items e T I | items T
                  | items e m f T I | items address name sc m f T I]; subst.
  - (* no usable address: caught, and the handler looks the address up *)
    assert (K : evaluate_caught e = true)
      by (destruct I as [<- | [<- | []]]; reflexivity).
    rewrite K. unfold bind, lift.
    destruct (dict_get token "tokenAddress" JNull) as [shown | e'] eqn:D.
    + apply out_caught; auto.
    + apply out_escaped; [ | now left].
      pose proof (dict_get_raises _ _ _ _ D) as [<- | []].
      right. now left.
  - apply out_escaped; [ | now right]. left. now exists code.
  - destruct I as [<- | [<- | [<- | [<- | [<- | []]]]]]; cbn [evaluate_caught];
      try (apply out_escaped; [unfold escapes; tauto | now right]);
      unfold bind, lift, dict_get;
      destruct (assoc "tokenAddress" items); apply out_caught; auto.
  - apply out_no_pairs.
  - assert (K : evaluate_caught e = true)
      by (destruct I as [<- | [<- | []]]; reflexivity).
    rewrite K. unfold bind, lift, dict_get.
    destruct (assoc "tokenAddress" items); apply out_caught; eauto.
  - apply out_result.
Qed.

(** X1.  Whatever the entry of the listing and whatever the server answers,
    the only exceptions that leave [evaluate_token] are the one of a failed
    fetch, [AttributeError] and [OverflowError]; when one does, at most one
    request was sent and nothing was printed. *)
Theorem evaluate_token_escapes :
  forall server str_to_float token st e st',
    evaluate_token server str_to_float token st = (Raise e, st') ->
    escapes e
    /\ stdout st' = stdout st
    /\ requests st' <= S (requests st).
Proof.
  intros server str_to_float token st e st' E.
  pose proof (evaluate_token_exits server str_to_float token st) as X.
  rewrite E in X.
  inversion X as [ | | | e' st1 Esc [-> | ->]]; subst;
    conjuncts; cbn; lia.
Qed.

(** A liquidity that is [null]: [.get] is asked of [None]. *)
Definition null_liquidity_server (_ : nat) (_ : url) : response :=
  Response 200 (JDict [("pairs", JList [JDict [("liquidity", JNull)]])]).

Lemma evaluate_token_escapes_witness :
  escapes AttributeError
  /\ stdout (add_request start) = stdout start
  /\ requests (add_request start) <= S (requests start).
Proof.
  exact (evaluate_token_escapes null_liquidity_server no_strings token_a start
           AttributeError (add_request start) eq_refl).
Defined.

Definition says_why (l : line) : Prop :=
  match l with
  | NoPairsData _ | ErrorEvaluating _ _ => True
  | _ => False
  end.

(** X2.  A call of [evaluate_token] sends at most one request and prints at
    most two lines.  When it returns a result it has printed the line
    [MCAP .. FDV ..] and nothing else; when it returns no result the last line
    it printed says why (no pairs, or the error caught). *)
Theorem evaluate_token_logs :
  forall server str_to_float token st,
  exists r st' lines,
    evaluate_token server str_to_float token st = (r, st')
    /\ requests st <= requests st' <= S (requests st)
    /\ draws st' = draws st
    /\ stdout st' = stdout st ++ lines
    /\ List.length lines <= 2
    /\ match r with
       | Ok (Some _) => exists m f, lines = [McapFdv m f]
       | Ok None => exists before l, lines = before ++ [l] /\ says_why l
       | Raise _ => lines = []
       end.
Proof.
  intros server str_to_float token st.
  pose proof (evaluate_token_exits server str_to_float token st) as X.
  destruct (evaluate_token server str_to_float token st) as [r st'].
  inversion X as [ev m f | shown | shown e st1 K [-> | [-> | (m & f & ->)]]
                  | e st1 Esc [-> | ->]]; subst.
  - do 2 eexists. exists [McapFdv m f]. split; [reflexivity | ].
    cbn. conjuncts. eauto.
  - do 2 eexists. exists [NoPairsData shown]. split; [reflexivity | ].
    cbn. conjuncts. now exists [], (NoPairsData shown).
  - do 2 eexists. exists [ErrorEvaluating shown e]. split; [reflexivity | ].
    cbn. conjuncts. now exists [], (ErrorEvaluating shown e).
  - do 2 eexists. exists [ErrorEvaluating shown e]. split; [reflexivity | ].
    cbn. conjuncts. now exists [], (ErrorEvaluating shown e).
  - do 2 eexists. exists [McapFdv m f; ErrorEvaluating shown e].
    split; [reflexivity | ]. cbn. conjuncts.
    + now rewrite <- app_assoc.
    + now exists [McapFdv m f], (ErrorEvaluating shown e).
  - do 2 eexists. exists []. split; [reflexivity | ].
    cbn. conjuncts. now rewrite app_nil_r.
  - do 2 eexists. exists []. split; [reflexivity | ].
    cbn. conjuncts. now rewrite app_nil_r.
Qed.

(** X3.  When the details of a token carry no ["pairs"] key, or carry under it
    anything that is false (an empty list, [null], zero, an empty string),
    the token yields no result, the line for missing pairs is printed and no
    error arises. *)
Theorem evaluate_token_no_pairs :
  forall server str_to_float items address data st,
    assoc "tokenAddress" items = Some address ->
    server (requests st) (TOKEN_DETAILS_URL address)
    = Response 200 (JDict data) ->
    (assoc "pairs" data = None
     \/ exists pairs, assoc "pairs" data = Some pairs
                      /\ truthy pairs = false) ->
    evaluate_token server str_to_float (JDict items) st
    = (Ok None, add_line (NoPairsData address) (add_request st)).
Proof.
  intros server str_to_float items address data st A R P.
  unfold evaluate_token, try_except, evaluate_token_body, bind, lift,
    fetch_data, getitem, contains, dict_get, print, modify, ret.
  rewrite A, R. cbn [status body Z.eqb Pos.eqb].
  destruct P as [P | (pairs & P & T)]; rewrite P; cbn [negb].
  - reflexivity.
  - rewrite T. reflexivity.
Qed.

(** The details of an unknown token: ["pairs"] is [null]. *)
Definition unknown_token_server (_ : nat) (_ : url) : response :=
  Response 200 (JDict [("schemaVersion", JStr "1.0.0"); ("pairs", JNull)]).

Lemma evaluate_token_no_pairs_witness :
  evaluate_token unknown_token_server no_strings token_a start
  = (Ok None, add_line (NoPairsData (JStr "0xA1")) (add_request start)).
Proof.
  apply (evaluate_token_no_pairs unknown_token_server no_strings
           [("tokenAddress", JStr "0xA1")] (JStr "0xA1")
           [("schemaVersion", JStr "1.0.0"); ("pairs", JNull)] start).
  - reflexivity.
  - reflexivity.
  - right. exists JNull. split; reflexivity.
Defined.

(** ** The loop over the sampled tokens *)

Lemma evaluate_token_address (server : nat -> url -> response)
    (str_to_float : string -> option float) (token : json) (st st' : state)
    (ev : evaluated) :
  evaluate_token server str_to_float token st = (Ok (Some ev), st') ->
  getitem token "tokenAddress" = Ok (tokenAddress ev).
Proof.
  unfold evaluate_token, try_except.
  pose proof (body_exits server str_to_float token st) as B.
  destruct (evaluate_token_body server str_to_float token st) as [[r | e] st1].
  - intros [= -> ->].
    inversion B as [ | | | | | items address name sc m f T I]; subst.
    cbn. now rewrite I.
  - destruct (evaluate_caught e); [ | discriminate].
    unfold bind, lift, print, modify, ret.
    destruct (dict_get token "tokenAddress" JNull); discriminate.
Qed.

Lemma evaluate_token_frame (server : nat -> url -> response)
    (str_to_float : string -> option float) (token : json) (st : state) :
  exists r st',
    evaluate_token server str_to_float token st = (r, st')
    /\ requests st <= requests st' <= S (requests st)
    /\ draws st' = draws st
    /\ (forall e, r = Raise e -> escapes e).
Proof.
  pose proof (evaluate_token_exits server str_to_float token st) as X.
  destruct (evaluate_token server str_to_float token st) as [r st'].
  exists r, st'. split; [reflexivity | ].
  inversion X as [ev m f | shown | shown e st1 K [-> | [-> | (m & f & ->)]]
                  | e st1 Esc [-> | ->]]; subst; cbn;
    conjuncts; try lia; try discriminate; intros ? [= <-]; assumption.
Qed.

Lemma evaluate_tokens_requests (server : nat -> url -> response)
    (str_to_float : string -> option float) (tokens : list json) :
  forall st,
    requests st
    <= requests (snd (evaluate_tokens server str_to_float tokens st))
    <= requests st + List.length tokens
    /\ draws (snd (evaluate_tokens server str_to_float tokens st)) = draws st.
Proof.
  induction tokens as [ | token tokens IH]; intro st.
  - cbn. lia.
  - cbn [evaluate_tokens]. unfold bind, ret.
    destruct (evaluate_token_frame server str_to_float token st)
      as (r1 & st1 & E1 & R1 & D1 & _).
    rewrite E1. destruct r1 as [result | e]; cbn [snd List.length].
    + specialize (IH st1).
      destruct (evaluate_tokens server str_to_float tokens st1)
        as [[l | x] st2]; cbn [snd] in IH |- *; lia.
    + lia.
Qed.

(** X4.  The loop over the sampled tokens sends at most one request per
    token and consumes no random draw.  When it completes it keeps at most as
    many results as there were tokens, each for the address of one of them;
    when it does not, the exception is one that leaves [evaluate_token]. *)
Theorem evaluate_tokens_bounds :
  forall server str_to_float tokens st,
  exists r st',
    evaluate_tokens server str_to_float tokens st = (r, st')
    /\ requests st <= requests st' <= requests st + List.length tokens
    /\ draws st' = draws st
    /\ match r with
       | Ok results =>
           List.length results <= List.length tokens
           /\ Forall (fun ev =>
                        exists token,
                          In token tokens
                          /\ getitem token "tokenAddress"
                             = Ok (tokenAddress ev)) results
       | Raise e => escapes e
       end.
Proof.
  intros server str_to_float tokens.
  induction tokens as [ | token tokens IH]; intro st.
  - exists (Ok []), st. cbn. conjuncts; lia.
  - cbn [evaluate_tokens]. unfold bind at 1.
    destruct (evaluate_token_frame server str_to_float token st)
      as (r1 & st1 & E1 & R1 & D1 & Esc1).
    rewrite E1. destruct r1 as [result | e].
    + destruct (IH st1) as (r2 & st2 & E2 & R2 & D2 & K).
      unfold bind. rewrite E2. destruct r2 as [results | e]; unfold ret.
      * eexists _, st2. split; [reflexivity | ].
        destruct K as [L F]. cbn [List.length].
        conjuncts; try lia; try congruence.
        -- destruct result; cbn [List.length]; lia.
        -- assert (F' : Forall (fun ev =>
                                  exists t, In t (token :: tokens)
                                            /\ getitem t "tokenAddress"
                                               = Ok (tokenAddress ev))
                           results).
           { eapply Forall_impl; [ | exact F].
             intros ev (t & T & G). exists t. split; [now right | exact G]. }
           destruct result as [ev | ]; [ | exact F'].
           constructor; [ | exact F'].
           exists token. split; [now left | ].
           eapply evaluate_token_address. exact E1.
      * exists (Raise e), st2. cbn [List.length].
        conjuncts; try lia; congruence.
    + exists (Raise e), st1. cbn [List.length]. conjuncts; lia.
Qed.

(** * Beyond the claims: the pace of the monitor *)

Section Pace.

Variable server : nat -> url -> response.
Variable str_to_float : string -> option float.
Variable token : evaluated.

(** A turn sends one request; it sleeps exactly when the loop goes on. *)
Lemma turn_accounting (st : state) :
  exists stop st1,
    monitor_turn server str_to_float token st = (Ok stop, st1)
    /\ requests st1 = S (requests st)
    /\ draws st1 = draws st
    /\ slept st1
       = (if (stop : bool) then slept st else slept st + FETCH_INTERVAL)%Z.
Proof.
  destruct (poll_cases server str_to_float token (requests st))
    as [[e F] | (name & price & Q)].
  - rewrite (turn_failed _ _ _ _ _ F). eexists _, _.
    split; [reflexivity | ]. cbn. conjuncts.
  - destruct (buy_price st) as [bought | ] eqn:B.
    + rewrite (turn_holding _ _ _ _ _ _ _ Q B).
      destruct (sell_condition bought price);
        (eexists _, _; split; [reflexivity | ]; cbn; conjuncts).
    + destruct (PrimFloat.eqb price 0) eqn:Z.
      * rewrite (turn_entry_zero _ _ _ _ _ _ Q B Z). eexists _, _.
        split; [reflexivity | ]. cbn. conjuncts.
      * rewrite (turn_entry _ _ _ _ _ _ Q B Z).
        destruct (sell_condition price price);
          (eexists _, _; split; [reflexivity | ]; cbn; conjuncts).
Qed.

Lemma loop_accounting (turns : nat) :
  forall st : state,
  exists r st' polls,
    monitor_loop server str_to_float turns token st = (Ok r, st')
    /\ requests st' = requests st + polls
    /\ polls <= turns
    /\ draws st' = draws st
    /\ match r with
       | Looping =>
           polls = turns
           /\ slept st' = (slept st + FETCH_INTERVAL * Z.of_nat polls)%Z
       | Returned =>
           1 <= polls
           /\ slept st' = (slept st + FETCH_INTERVAL * Z.of_nat (polls - 1))%Z
       end.
Proof.
  induction turns as [ | turns IH]; intro st.
  - exists Looping, st, 0. cbn [monitor_loop]. unfold ret.
    conjuncts; lia.
  - cbn [monitor_loop]. unfold bind at 1.
    destruct (turn_accounting st) as (stop & st1 & E & R & D & S1).
    rewrite E. destruct stop.
    + exists Returned, st1, 1. unfold ret. conjuncts; lia.
    + destruct (IH st1) as (r & st' & polls & E' & R' & L & D' & K).
      exists r, st', (S polls). split; [exact E' | ].
      conjuncts; try lia; try congruence.
      unfold FETCH_INTERVAL in *.
      destruct r; destruct K as [K1 K2]; split; lia.
Qed.

End Pace.

(** X7.  The monitor never raises.  It sends one request per turn, at most
    [turns] of them, and draws no random number.  While it is looping it has
    slept [FETCH_INTERVAL] seconds after each poll; when it returns it has
    polled at least once and slept after every poll but the last. *)
Theorem monitor_token_pace :
  forall server str_to_float token turns st,
  exists r st' polls,
    monitor_token server str_to_float turns token st = (Ok r, st')
    /\ requests st' = requests st + polls
    /\ polls <= turns
    /\ draws st' = draws st
    /\ match r with
       | Looping =>
           polls = turns
           /\ slept st' = (slept st + FETCH_INTERVAL * Z.of_nat polls)%Z
       | Returned =>
           1 <= polls
           /\ slept st' = (slept st + FETCH_INTERVAL * Z.of_nat (polls - 1))%Z
       end.
Proof.
  intros server str_to_float token turns st.
  unfold monitor_token, init_locals, modify. unfold bind at 1.
  destruct (loop_accounting server str_to_float token turns
              (with_current_balance INITIAL_BALANCE
                 (with_purchased_amount 0 (with_buy_price None st))))
    as (r & st' & polls & H).
  exists r, st', polls. exact H.
Qed.

(** X8.  A first price that meets the sell test against itself (a negative
    price, say) is bought and sold in one and the same turn: one request, no
    sleep, and the three lines of the poll, the buy and the sale. *)
Theorem monitor_buys_and_sells_at_once :
  forall server str_to_float token st name price turns,
    quoted server str_to_float token (requests st) name price ->
    PrimFloat.eqb price 0 = false ->
    sell_condition price price = true ->
    exists st' profit color,
      monitor_token server str_to_float (S turns) token st
      = (Ok Returned, st')
      /\ stdout st'
         = stdout st ++ [Monitoring name price; Bought name price;
                         Sold name price profit color]
      /\ profit = ((price - price) * (INITIAL_BALANCE / price))%float
      /\ buy_price st' = Some price
      /\ current_balance st' = (INITIAL_BALANCE + profit)%float
      /\ requests st' = S (requests st)
      /\ slept st' = slept st.
Proof.
  intros server str_to_float token st name price turns Q Z C.
  unfold monitor_token, init_locals, modify. unfold bind at 1.
  cbn [monitor_loop]. unfold bind at 1.
  rewrite (turn_entry server str_to_float token
             (with_current_balance INITIAL_BALANCE
                (with_purchased_amount 0 (with_buy_price None st)))
             name price Q eq_refl Z).
  rewrite C. eexists _, _, _. split; [reflexivity | ].
  cbn. rewrite <- !app_assoc.
  repeat (split; [reflexivity | ]). reflexivity.
Qed.

Lemma monitor_buys_and_sells_at_once_witness :
  exists st' profit color,
    monitor_token (quote_server (-1)) no_strings 1 example_best start
    = (Ok Returned, st')
    /\ stdout st'
       = stdout start ++ [Monitoring (JStr "MEME") (-1);
                          Bought (JStr "MEME") (-1);
                          Sold (JStr "MEME") (-1) profit color]
    /\ profit = ((-1 - -1) * (INITIAL_BALANCE / -1))%float
    /\ buy_price st' = Some (-1)%float
    /\ current_balance st' = (INITIAL_BALANCE + profit)%float
    /\ requests st' = S (requests start)
    /\ slept st' = slept start.
Proof.
  apply (monitor_buys_and_sells_at_once (quote_server (-1)) no_strings
           example_best start (JStr "MEME") (-1)%float 0).
  - eexists. split; reflexivity.
  - reflexivity.
  - reflexivity.
Defined.

(** * Beyond the claims: the sampler and the run *)

Section Listing.

Variable server : nat -> url -> response.
Variable sample : sampler.
Hypothesis without_replacement : samples_without_replacement sample.

(** What [get_random_tokens] does to the state, and what it can raise. *)
Lemma get_random_tokens_frame (st : state) :
  exists r st',
    get_random_tokens server sample st = (r, st')
    /\ requests st' = S (requests st)
    /\ stdout st' = stdout st
    /\ slept st' = slept st
    /\ match r with
       | Ok tokens => List.length tokens <= 15
       | Raise e =>
           st' = add_request st
           /\ ((e = PlainException
                      (status (server (requests st) TOKEN_LIST_URL))
                /\ Z.eqb (status (server (requests st) TOKEN_LIST_URL)) 200
                   = false)
               \/ e = FormatException)
       end.
Proof.
  destruct (server (requests st) TOKEN_LIST_URL) as [code data] eqn:R.
  cbn [status].
  destruct (Z.eqb code 200) eqn:C.
  2:{ unfold get_random_tokens, bind, fetch_data. rewrite R.
      cbn [status body]. rewrite C.
      eexists _, _. split; [reflexivity | ]. cbn. conjuncts. }
  apply Z.eqb_eq in C. subst code.
  assert (L : (exists l, data = JList l) \/ (forall l, data <> JList l)).
  { destruct data; try (right; intros l H; discriminate H).
    left. now exists l. }
  destruct L as [[l ->] | NL].
  - destruct (get_random_tokens_positions server sample st l
                without_replacement R)
      as (positions & st' & E & P1 & _ & _ & P4 & P5 & P6).
    rewrite E. eexists _, st'. split; [reflexivity | ].
    conjuncts. rewrite length_map, P1. apply Nat.le_min_r.
  - rewrite (get_random_tokens_not_list server sample st data R NL).
    eexists _, _. split; [reflexivity | ]. cbn. conjuncts.
Qed.

End Listing.

(** X9.  With a library that samples without replacement, nothing is left
    out of a listing of at most 15 tokens: the sample is the whole listing,
    in some order. *)
Theorem get_random_tokens_short_listing :
  forall server sample st l,
    samples_without_replacement sample ->
    server (requests st) TOKEN_LIST_URL = Response 200 (JList l) ->
    List.length l <= 15 ->
    exists tokens st',
      get_random_tokens server sample st = (Ok tokens, st')
      /\ Permutation tokens l.
Proof.
  intros server sample st l W R L.
  destruct (get_random_tokens_positions server sample st l W R)
    as (positions & st' & E & Len & N & B & _).
  rewrite E. eexists _, _. split; [reflexivity | ].
  rewrite Nat.min_l in Len by exact L.
  assert (P : Permutation positions (seq 0 (List.length l))).
  { apply NoDup_Permutation_bis; [exact N | | ].
    - rewrite length_seq, Len. apply Nat.le_refl.
    - intros i I. rewrite Forall_forall in B. apply in_seq.
      specialize (B i I). lia. }
  apply (Permutation_map (fun i => nth i l JNull)) in P.
  rewrite nth_seq_self in P. exact P.
Qed.

Lemma get_random_tokens_short_listing_witness :
  exists tokens st',
    get_random_tokens (listing_server (JList [token_a; token_b]))
      first_items start
    = (Ok tokens, st')
    /\ Permutation tokens [token_a; token_b].
Proof.
  apply (get_random_tokens_short_listing
           (listing_server (JList [token_a; token_b])) first_items start
           [token_a; token_b]).
  - exact first_items_without_replacement.
  - reflexivity.
  - cbn. lia.
Defined.

(** X10.  With a library that samples without replacement, the sampler
    raises only the exception of a failed fetch or the one of a listing that
    is not a list; either ends the run with that exception, after the one
    request and with nothing printed. *)
Theorem listing_failure_ends_run :
  forall server sample str_to_float turns st e st1,
    samples_without_replacement sample ->
    get_random_tokens server sample st = (Raise e, st1) ->
    ((exists code, e = PlainException code /\ code <> 200%Z)
     \/ e = FormatException)
    /\ st1 = add_request st
    /\ main server sample str_to_float turns st = (Raise e, add_request st).
Proof.
  intros server sample str_to_float turns st e st1 W G.
  destruct (get_random_tokens_frame server sample W st)
    as (r & st' & E & _ & _ & _ & K).
  rewrite G in E. injection E as <- <-. destruct K as [-> K].
  conjuncts.
  - destruct K as [[-> C] | ->]; [left | now right].
    eexists. split; [reflexivity | ]. now apply Z.eqb_neq.
  - unfold main. unfold bind at 1. now rewrite G.
Qed.

Lemma listing_failure_ends_run_witness :
  ((exists code, PlainException 500 = PlainException code /\ code <> 200%Z)
   \/ PlainException 500 = FormatException)
  /\ add_request start = add_request start
  /\ main down_server first_items no_strings 5 start
     = (Raise (PlainException 500), add_request start).
Proof.
  exact (listing_failure_ends_run down_server first_items no_strings 5 start
           (PlainException 500) (add_request start)
           first_items_without_replacement eq_refl).
Defined.

(** ** The run once the tokens are evaluated *)

Definition evaluated_line (t : evaluated) : line :=
  EvaluatedTokenLine (tokenAddress t) (tokenName t) (score t).

Definition add_lines (lines : list line) (st : state) : state :=
  State (requests st) (draws st) (stdout st ++ lines) (slept st)
        (buy_price st) (purchased_amount st) (current_balance st).

Lemma print_evaluated_lines (tokens : list evaluated) :
  forall st,
    print_evaluated tokens st
    = (Ok tt, add_lines (map evaluated_line tokens) st).
Proof.
  induction tokens as [ | t tokens IH]; intro st.
  - cbn. unfold ret, add_lines. rewrite app_nil_r. now destruct st.
  - cbn [print_evaluated map]. unfold bind, print, modify. rewrite IH.
    unfold add_lines, add_line. cbn. now rewrite <- app_assoc.
Qed.

(** The state in which [main] calls [monitor_token]. *)
Definition announced (first : evaluated) (others : list evaluated)
    (st : state) : state :=
  add_line (BestTokenSelected (tokenName (max_from first others))
              (tokenAddress (max_from first others)))
    (add_lines (map evaluated_line (first :: others))
       (add_line EvaluatedTokensHeader st)).

Lemma main_selects (server : nat -> url -> response) (sample : sampler)
    (str_to_float : string -> option float) (turns : nat)
    (st st1 st2 : state) (tokens : list json) (first : evaluated)
    (others : list evaluated) :
  get_random_tokens server sample st = (Ok tokens, st1) ->
  evaluate_tokens server str_to_float tokens st1
  = (Ok (first :: others), st2) ->
  main server sample str_to_float turns st
  = monitor_token server str_to_float turns (max_from first others)
      (announced first others st2).
Proof.
  intros G E. unfold main. unfold bind at 1. rewrite G.
  unfold bind at 1. rewrite E.
  unfold bind at 1. unfold print at 1, modify.
  unfold bind at 1. rewrite print_evaluated_lines.
  unfold bind at 1. unfold lift, max_by_score.
  unfold bind at 1. unfold print, modify. reflexivity.
Qed.



(** X5.  With a library that samples without replacement, a run sends the
    request for the listing, at most one request for each of the at most 15
    tokens sampled, and one per turn of the monitor: never more than
    [16 + turns] requests. *)
Theorem main_request_budget :
  forall server sample str_to_float turns st,
    samples_without_replacement sample ->
    exists r st',
      main server sample str_to_float turns st = (r, st')
      /\ requests st < requests st' <= requests st + 16 + turns.
Proof.
  intros server sample str_to_float turns st W.
  destruct (get_random_tokens_frame server sample W st)
    as (r1 & st1 & G & R1 & _ & _ & K1).
  destruct r1 as [tokens | e].
  2:{ exists (Raise e), st1. unfold main. unfold bind at 1. rewrite G.
      destruct K1 as [-> _]. cbn. conjuncts; lia. }
  pose proof (evaluate_tokens_requests server str_to_float tokens st1)
    as [R2 _].
  destruct (evaluate_tokens server str_to_float tokens st1)
    as [[results | e] st2] eqn:E; cbn [snd] in R2.
  2:{ exists (Raise e), st2. unfold main. unfold bind at 1. rewrite G.
      unfold bind at 1. rewrite E. conjuncts; lia. }
  destruct results as [ | first others].
  - exists (Ok Returned), (add_line NoValidTokens st2).
    unfold main. unfold bind at 1. rewrite G.
    unfold bind at 1. rewrite E. cbn. conjuncts; lia.
  - rewrite (main_selects server sample str_to_float turns st st1 st2 tokens
               first others G E).
    unfold monitor_token, init_locals, modify. unfold bind at 1.
    destruct (loop_accounting server str_to_float (max_from first others)
                turns
                (with_current_balance INITIAL_BALANCE
                   (with_purchased_amount 0
                      (with_buy_price None (announced first others st2)))))
      as (r & st' & polls & M & R & L & _).
    exists (Ok r), st'. split; [exact M | ].
    cbn in R. conjuncts; lia.
Qed.

Lemma main_request_budget_witness :
  exists r st',
    main market first_items no_strings 10 start = (r, st')
    /\ requests start < requests st' <= requests start + 16 + 10.
Proof.
  exact (main_request_budget market first_items no_strings 10 start
           first_items_without_replacement).
Defined.

(** * Beyond the claims: NaN, the divisor and the selector *)

Section NotANumber.

Import FloatFacts.

Lemma nan_rank (x : float) : PyFloat.is_nan x = true <-> rank x = None.
Proof.
  unfold PyFloat.is_nan. rewrite negb_true_iff, eqb_rank_false.
  unfold level. destruct (rank x) as [[[a b] c] | ]; split; intro H;
    try discriminate; tauto.
Qed.

Lemma nan_spec (x : float) :
  PyFloat.is_nan x = true <-> Prim2SF x = S754_nan.
Proof.
  rewrite nan_rank. unfold rank.
  destruct (Prim2SF x) as [[ | ] | [ | ] | | [ | ] m e]; cbn;
    split; intro H; try discriminate; reflexivity.
Qed.

Lemma div_by_nan (a x : float) :
  PyFloat.is_nan x = true -> PyFloat.is_nan (a / x) = true.
Proof.
  rewrite !nan_spec. intro H. rewrite div_spec, H.
  now destruct (Prim2SF a).
Qed.

(** The running best of [max] is never replaced when its score is NaN, and
    never replaced by a NaN. *)
Lemma max_from_nan (best : evaluated) (rest : list evaluated) :
  PyFloat.is_nan (score best) = true -> max_from best rest = best.
Proof.
  intro N. apply nan_rank in N.
  induction rest as [ | x rest IH]; [reflexivity | ].
  cbn [max_from].
  replace (PrimFloat.ltb (score best) (score x)) with false; [exact IH | ].
  symmetry. apply ltb_rank_false. unfold below. now rewrite N.
Qed.

Lemma max_from_not_nan (rest : list evaluated) :
  forall best : evaluated,
    PyFloat.is_nan (score best) = false ->
    PyFloat.is_nan (score (max_from best rest)) = false.
Proof.
  induction rest as [ | x rest IH]; intros best N; [exact N | ].
  cbn [max_from].
  destruct (PrimFloat.ltb (score best) (score x)) eqn:L.
  - apply IH. apply ltb_rank in L.
    destruct (PyFloat.is_nan (score x)) eqn:Nx; [ | reflexivity].
    apply nan_rank in Nx. unfold below in L. rewrite Nx in L.
    now destruct (rank (score best)) as [[[a b] c] | ].
  - now apply IH.
Qed.

End NotANumber.

(** X11.  A score that is NaN wins the selection exactly when it stands
    first: the first token is selected, whatever the others score, when its
    score is NaN; otherwise the token selected has a score that is not NaN. *)
Theorem max_by_score_nan :
  forall first others,
    (PyFloat.is_nan (score first) = true ->
     max_by_score (first :: others) = Ok first)
    /\ (PyFloat.is_nan (score first) = false ->
        exists best,
          max_by_score (first :: others) = Ok best
          /\ PyFloat.is_nan (score best) = false).
Proof.
  intros first others. split; intro N.
  - cbn [max_by_score]. now rewrite (max_from_nan first others N).
  - exists (max_from first others). split; [reflexivity | ].
    now apply max_from_not_nan.
Qed.

Lemma max_by_score_nan_witness :
  max_by_score [Evaluated (JStr "0xA1") (JStr "AAA") PrimFloat.nan;
                Evaluated (JStr "0xB2") (JStr "BBB") 1]
  = Ok (Evaluated (JStr "0xA1") (JStr "AAA") PrimFloat.nan).
Proof.
  exact (proj1 (max_by_score_nan
                  (Evaluated (JStr "0xA1") (JStr "AAA") PrimFloat.nan)
                  [Evaluated (JStr "0xB2") (JStr "BBB") 1])
           eq_refl).
Defined.

(** X12.  The divisor [max(x, 1)] of the ratio and of the score is never
    below 1, so never zero; it is [x] itself when [x] is NaN, and a score
    divided by a NaN FDV is NaN. *)
Theorem divisor_floor :
  forall x : float,
    PrimFloat.ltb (PyFloat.py_max x 1) 1 = false
    /\ PrimFloat.eqb (PyFloat.py_max x 1) 0 = false
    /\ (PyFloat.is_nan x = false ->
        PrimFloat.leb 1 (PyFloat.py_max x 1) = true)
    /\ (PyFloat.is_nan x = true ->
        PyFloat.py_max x 1 = x
        /\ forall l v b s p,
             PyFloat.is_nan (score_formula l v b s x p) = true).
Proof.
  intro x.
  assert (M : PyFloat.is_nan x = true -> PyFloat.py_max x 1 = x).
  { intro N. unfold PyFloat.py_max.
    replace (PrimFloat.ltb x 1) with false; [reflexivity | ].
    symmetry. apply FloatFacts.ltb_rank_false.
    apply nan_rank in N. unfold FloatFacts.below. now rewrite N. }
  split; [ | split; [apply FloatFacts.max_one_nonzero | split]].
  - unfold PyFloat.py_max.
    destruct (PrimFloat.ltb x 1) eqn:L; [reflexivity | exact L].
  - intro N. unfold PyFloat.py_max.
    destruct (PrimFloat.ltb x 1) eqn:L; [reflexivity | ].
    now apply FloatFacts.ltb_total.
  - intro N. split; [exact (M N) | ].
    intros l v b s p. unfold score_formula. rewrite (M N).
    now apply div_by_nan.
Qed.

Lemma divisor_floor_witness :
  PrimFloat.leb 1 (PyFloat.py_max 0 1) = true.
Proof.
  exact (proj1 (proj2 (proj2 (divisor_floor 0))) eq_refl).
Defined.

(** * Beyond the claims: entries and fields that cannot be used *)

Lemma extract_market_cap_raises (str_to_float : string -> option float)
    (pair : json) (l v b s f p : float) (e : exn) :
  number_at str_to_float pair ["liquidity"; "usd"] (JInt 0) = Ok l ->
  number_at str_to_float pair ["volume"; "h24"] (JInt 0) = Ok v ->
  number_at str_to_float pair ["txns"; "h24"; "buys"] (JInt 0) = Ok b ->
  number_at str_to_float pair ["txns"; "h24"; "sells"] (JInt 0) = Ok s ->
  number_at str_to_float pair ["fdv"] (JInt 1) = Ok f ->
  number_at str_to_float pair ["priceChange"; "h24"] (JInt 0) = Ok p ->
  number_at str_to_float pair ["marketCap"] (JFloat f) = Raise e ->
  extract str_to_float pair = Raise e.
Proof.
  unfold number_at, get_path, extract.
  intros Hl Hv Hb Hs Hf Hp Hm.
  repeat match goal with
         | H : rbind _ _ = Ok _ |- _ =>
             apply rbind_ok in H; destruct H as (? & ? & H)
         end.
  repeat match goal with
         | H : ?x = Ok _ |- context [?x] => rewrite H; cbn [rbind]
         | H : ?x = Ok _, H' : ?x = Ok _ |- _ =>
             rewrite H in H'; injection H' as <-
         end.
  rewrite FloatFacts.truediv_max_one. cbn [rbind].
  repeat match goal with
         | H : ?x = Ok _ |- context [?x] => rewrite H; cbn [rbind]
         end.
  destruct (dict_get pair "marketCap" (JFloat f)) as [cap | e'];
    cbn [rbind] in Hm |- *; [ | now injection Hm as ->].
  destruct (py_float str_to_float cap); cbn [rbind];
    [discriminate | now injection Hm as ->].
Qed.

(** X13.  The market cap does not enter the score, yet a market cap that
    [float] rejects with [TypeError] or [ValueError] costs the token its
    result: the error is caught and printed, the line [MCAP .. FDV ..] is
    not, although every field of the score reads as a number. *)
Theorem bad_market_cap_discards :
  forall server str_to_float items address token_data pair more
         l v b s f p e st,
    assoc "tokenAddress" items = Some address ->
    server (requests st) (TOKEN_DETAILS_URL address)
    = Response 200 token_data ->
    getitem token_data "pairs" = Ok (JList (pair :: more)) ->
    number_at str_to_float pair ["liquidity"; "usd"] (JInt 0) = Ok l ->
    number_at str_to_float pair ["volume"; "h24"] (JInt 0) = Ok v ->
    number_at str_to_float pair ["txns"; "h24"; "buys"] (JInt 0) = Ok b ->
    number_at str_to_float pair ["txns"; "h24"; "sells"] (JInt 0) = Ok s ->
    number_at str_to_float pair ["fdv"] (JInt 1) = Ok f ->
    number_at str_to_float pair ["priceChange"; "h24"] (JInt 0) = Ok p ->
    number_at str_to_float pair ["marketCap"] (JFloat f) = Raise e ->
    In e [TypeError; ValueError] ->
    evaluate_token server str_to_float (JDict items) st
    = (Ok None, add_line (ErrorEvaluating address e) (add_request st)).
Proof.
  intros server str_to_float items address token_data pair more
    l v b s f p e st A R P Hl Hv Hb Hs Hf Hp Hm I.
  pose proof (extract_market_cap_raises str_to_float pair l v b s f p e
                Hl Hv Hb Hs Hf Hp Hm) as X.
  unfold evaluate_token, try_except, evaluate_token_body, bind, lift,
    fetch_data.
  cbn [getitem]. rewrite A, R. cbn [status body Z.eqb Pos.eqb].
  rewrite (getitem_contains _ _ _ P). cbn [negb].
  rewrite P. cbn [truthy negb getitem0]. rewrite X.
  assert (K : evaluate_caught e = true)
    by (destruct I as [<- | [<- | []]]; reflexivity).
  unfold ret. cbn beta iota. rewrite K.
  unfold dict_get, print, modify, ret. rewrite A. reflexivity.
Qed.

(** A market cap given as text that is no number. *)
Definition odd_cap_server (_ : nat) (_ : url) : response :=
  Response 200
    (JDict [("pairs",
             JList [JDict [("baseToken", JDict [("symbol", JStr "MEME")]);
                           ("fdv", JInt 2000);
                           ("marketCap", JStr "n/a")]])]).

Lemma bad_market_cap_discards_witness :
  evaluate_token odd_cap_server no_strings token_a start
  = (Ok None,
     add_line (ErrorEvaluating (JStr "0xA1") ValueError) (add_request start)).
Proof.
  apply (bad_market_cap_discards odd_cap_server no_strings
           [("tokenAddress", JStr "0xA1")] (JStr "0xA1")
           (body (odd_cap_server 0 TOKEN_LIST_URL))
           (JDict [("baseToken", JDict [("symbol", JStr "MEME")]);
                   ("fdv", JInt 2000);
                   ("marketCap", JStr "n/a")])
           [] 0%float 0%float 0%float 0%float 2000%float 0%float
           ValueError start);
    try reflexivity.
  cbn. tauto.
Defined.

(** X14.  An entry of the listing that is not a dictionary cannot be
    skipped: reading its address raises [TypeError], which is caught, and the
    handler, asking the entry for its address to print it, raises
    [AttributeError].  No request is sent, nothing is printed, and the loop
    over the tokens stops there.  A dictionary without ['tokenAddress'] is
    skipped, without a request. *)
Theorem unusable_entry :
  forall server str_to_float token st,
    ((forall items, token <> JDict items) ->
     evaluate_token server str_to_float token st = (Raise AttributeError, st)
     /\ forall before results rest st0,
          evaluate_tokens server str_to_float before st0 = (Ok results, st) ->
          fst (evaluate_tokens server str_to_float (before ++ token :: rest)
                 st0)
          = Raise AttributeError)
    /\ (forall items,
          token = JDict items ->
          assoc "tokenAddress" items = None ->
          evaluate_token server str_to_float token st
          = (Ok None, add_line (ErrorEvaluating JNull KeyError) st)).
Proof.
  intros server str_to_float token st. split.
  - intro N.
    assert (E : evaluate_token server str_to_float token st
                = (Raise AttributeError, st)).
    { unfold evaluate_token, try_except, evaluate_token_body, bind, lift.
      destruct token; try reflexivity. now contradiction (N items). }
    split; [exact E | ].
    intros before. revert st E.
    induction before as [ | t before IH]; intros st E results rest st0 B.
    + cbn in B. injection B as _ <-.
      cbn [app evaluate_tokens]. unfold bind at 1. now rewrite E.
    + cbn [app evaluate_tokens] in B |- *. unfold bind at 1 in B.
      unfold bind at 1.
      destruct (evaluate_token server str_to_float t st0) as [[r | e] st1];
        [ | discriminate B].
      unfold bind at 1 in B. unfold bind at 1.
      destruct (evaluate_tokens server str_to_float before st1)
        as [[results' | e] st2] eqn:B'; [ | discriminate B].
      unfold ret in B. injection B as _ B2. subst st2.
      specialize (IH st E results' rest st1 B').
      destruct (evaluate_tokens server str_to_float
                  (before ++ token :: rest) st1) as [[x | e] s2];
        cbn [fst] in IH; [discriminate IH | ].
      cbn [fst]. exact IH.
  - intros items -> A.
    unfold evaluate_token, try_except, evaluate_token_body, bind, lift,
      getitem, dict_get, print, modify, ret.
    rewrite A. reflexivity.
Qed.

Lemma unusable_entry_witness :
  evaluate_token down_server no_strings (JStr "0xA1") start
  = (Raise AttributeError, start).
Proof.
  refine (proj1 (proj1 (unusable_entry down_server no_strings (JStr "0xA1")
                          start) _)).
  intros items H. discriminate H.
Defined.

(** X15.  A token can be evaluated without a price: the evaluator never
    reads ["priceUsd"].  When the first poll of the monitor finds no
    ["priceUsd"] in the first pair, the monitor prints the [KeyError] and
    returns after that one request: nothing is bought, the balance is the
    initial one. *)
Theorem monitor_without_price :
  forall server str_to_float token st turns token_data pair_items more
         base name,
    server (requests st) (TOKEN_DETAILS_URL (tokenAddress token))
    = Response 200 token_data ->
    getitem token_data "pairs" = Ok (JList (JDict pair_items :: more)) ->
    assoc "baseToken" pair_items = Some base ->
    getitem base "symbol" = Ok name ->
    assoc "priceUsd" pair_items = None ->
    exists st',
      monitor_token server str_to_float (S turns) token st = (Ok Returned, st')
      /\ stdout st' = stdout st ++ [ErrorMonitoring KeyError]
      /\ buy_price st' = None
      /\ current_balance st' = INITIAL_BALANCE
      /\ requests st' = S (requests st).
Proof.
  intros server str_to_float token st turns token_data pair_items more
    base name R P B N A.
  assert (F : failed server str_to_float token (requests st) KeyError).
  { right. rewrite R. cbn [status body]. split; [reflexivity | ].
    unfold read_quote. rewrite P. cbn [rbind getitem0 getitem].
    rewrite B. cbn [rbind]. rewrite N. cbn [rbind]. now rewrite A. }
  unfold monitor_token, init_locals, modify. unfold bind at 1.
  cbn [monitor_loop]. unfold bind at 1.
  rewrite (turn_failed server str_to_float token
             (with_current_balance INITIAL_BALANCE
                (with_purchased_amount 0 (with_buy_price None st)))
             KeyError F).
  eexists. split; [reflexivity | ]. cbn. conjuncts.
Qed.

Lemma monitor_without_price_witness :
  exists st',
    monitor_token example_server no_strings 3 example_best start
    = (Ok Returned, st')
    /\ stdout st' = stdout start ++ [ErrorMonitoring KeyError]
    /\ buy_price st' = None
    /\ current_balance st' = INITIAL_BALANCE
    /\ requests st' = S (requests start).
Proof.
  apply (monitor_without_price example_server no_strings example_best start
           2 (JDict [("pairs", JList [example_pair])])
           [("liquidity", JDict [("usd", JInt 1000)]);
            ("volume", JDict [("h24", JInt 500)]);
            ("txns",
             JDict [("h24", JDict [("buys", JInt 10); ("sells", JInt 5)])]);
            ("fdv", JInt 2000);
            ("priceChange", JDict [("h24", JInt 3)]);
            ("baseToken", JDict [("symbol", JStr "MEME")])]
           [] (JDict [("symbol", JStr "MEME")]) (JStr "MEME"));
    reflexivity.
Defined.
